(** * AI Text Summarizer Pro: quota bookkeeping and request lifecycle

    A shallow embedding of [src/main.py], a Streamlit script.  Streamlit
    re-executes the whole script on every user interaction; the only data
    that survives from one execution to the next is [st.session_state].
    One execution is modelled as the function [run], from the session
    state found at the start to the session state left at the end,
    together with what was shown and which requests went to the Gemini API.

    - Python [str] is a list of Unicode code points ([pystr]).
    - Python [int] is [Z]; [len] results are [nat].
    - Python [float] is the kernel's binary64 [float].
    - The Gemini call is the only external effect.  The handler returns
      either a finished result or the request together with the
      continuation that consumes the API's answer ([Handler]).

    [run] is the script in the executions in which no library call stops
    it: [st.progress] accepts the value it is handed, nothing is assigned
    to the key of the text box after the box exists, the response's
    [.text] is a string, and [int()] accepts the run of digits.  [script]
    puts the first two back: it is [run] wrapped in the two places where
    Streamlit stops the execution, line 51 and line 79. *)

From Stdlib Require Import ZArith NArith List Bool Lia.
From Stdlib Require Import Ascii String DecimalString DecimalNat DecimalPos.
From Stdlib Require Import Floats Uint63.
Import ListNotations.

Set Warnings "-inexact-float".
Open Scope Z_scope.

(** Python's [len] on lists and strings. *)
Abbreviation len := (@List.length _).

(** ** Python strings *)

Definition codepoint := N.
Definition pystr := list codepoint.

(** An ASCII literal of the source, as a [pystr]. *)
Definition lit (s : string) : pystr :=
  map N_of_ascii (list_ascii_of_string s).

Definition pystr_eqb (a b : pystr) : bool :=
  if list_eq_dec N.eq_dec a b then true else false.

(** The two non-ASCII characters of the messages the claims mention:
    U+1F4C4 (line 161) and U+1F6AB (lines 128 and 191). *)
Definition page_facing_up : codepoint := 128196%N.
Definition no_entry_sign : codepoint := 128683%N.

(** [str.isspace] for one character: the code points CPython treats as
    whitespace in [str.split()] and [str.strip()] (U+0009..U+000D,
    U+001C..U+0020, U+0085, U+00A0, U+1680, U+2000..U+200A, U+2028, U+2029,
    U+202F, U+205F, U+3000). *)
Definition isspace (c : codepoint) : bool :=
  (((9 <=? c) && (c <=? 13)) || ((28 <=? c) && (c <=? 32))
   || (c =? 133) || (c =? 160) || (c =? 5760)
   || ((8192 <=? c) && (c <=? 8202))
   || (c =? 8232) || (c =? 8233) || (c =? 8239) || (c =? 8287)
   || (c =? 12288))%N.

(** [s.split()] with no argument: the maximal runs of non-whitespace
    characters, in order.  [cur] is the current run, reversed. *)
Fixpoint split_from (cur : pystr) (s : pystr) : list pystr :=
  match s with
  | [] => match cur with [] => [] | _ => [rev cur] end
  | c :: s' =>
      if isspace c
      then match cur with
           | [] => split_from [] s'
           | _ => rev cur :: split_from [] s'
           end
      else split_from (c :: cur) s'
  end.

Definition split (s : pystr) : list pystr := split_from [] s.

Fixpoint lstrip (s : pystr) : pystr :=
  match s with
  | c :: s' => if isspace c then lstrip s' else s
  | [] => []
  end.

(** [s.strip()] with no argument. *)
Definition strip (s : pystr) : pystr := rev (lstrip (rev (lstrip s))).

(** [s.lower()].  The script applies it to the slider's labels only, which
    are ASCII; on ASCII text [str.lower] maps A..Z to a..z and nothing else. *)
Definition lower (s : pystr) : pystr :=
  map (fun c => if ((65 <=? c) && (c <=? 90))%N then (c + 32)%N else c) s.

(** [str(n)] for an [int], as f-strings format it. *)
Definition str_of_nat (n : nat) : pystr :=
  lit (NilEmpty.string_of_uint (Nat.to_uint n)).

Definition str_of_Z (z : Z) : pystr :=
  lit (NilEmpty.string_of_int (Z.to_int z)).

(** [needle in s]. *)
Fixpoint startswith (p s : pystr) : bool :=
  match p, s with
  | [], _ => true
  | a :: p', b :: s' => (a =? b)%N && startswith p' s'
  | _ :: _, [] => false
  end.

Fixpoint contains (needle s : pystr) : bool :=
  startswith needle s
  || match s with
     | [] => false
     | _ :: s' => contains needle s'
     end.

(** The specification's reading of [contains]: [needle] occurs in [s] as a
    contiguous block. *)
Definition substring (needle s : pystr) : Prop :=
  exists pre post, s = pre ++ needle ++ post.

(** ** Python numbers *)

Inductive pynum :=
| PyInt (z : Z)
| PyFloat (f : float).

(** The exceptions the modelled code can raise.  A partial operation
    returns [None] where Python raises; each one raises one exception only. *)
Inductive PyExc :=
| KeyError
| ZeroDivisionError.

(** Truth value of an [int]. *)
Definition truthy (z : Z) : bool := negb (z =? 0).

(** [float(z)].  Exact below 2^53; every length in this program is far
    below that. *)
Definition float_of_Z (z : Z) : float :=
  if z <? 0 then PrimFloat.opp (PrimFloat.of_uint63 (Uint63.of_Z (- z)))
  else PrimFloat.of_uint63 (Uint63.of_Z z).

(** [a / b] on two [int]s: true division, [ZeroDivisionError] on [b == 0]. *)
Definition truediv (a b : Z) : option float :=
  if b =? 0 then None
  else Some (PrimFloat.div (float_of_Z a) (float_of_Z b)).

(** ** Summary options (lines 92-120) *)

Inductive SummaryLength :=
| very_short | short | balanced | detailed | very_detailed.

Inductive Language := English | Hindi.

Inductive Format := paragraph | bullet_points.

(** The labels of the widgets, which are the values the script receives. *)
Definition length_label (l : SummaryLength) : pystr :=
  match l with
  | very_short => lit "Very short"
  | short => lit "Short"
  | balanced => lit "Balanced"
  | detailed => lit "Detailed"
  | very_detailed => lit "Very detailed"
  end.

Definition language_label (l : Language) : pystr :=
  match l with
  | English => lit "English"
  | Hindi => lit "Hindi"
  end.

Definition format_label (f : Format) : pystr :=
  match f with
  | paragraph => lit "Paragraph"
  | bullet_points => lit "Bullet points"
  end.

(** [temp_map], a dict literal, in the order it is written. *)
Definition temp_map : list (pystr * float) :=
  [ (lit "Very short", 0.1%float);
    (lit "Short", 0.3%float);
    (lit "Balanced", 0.5%float);
    (lit "Detailed", 0.7%float);
    (lit "Very detailed", 0.9%float) ].

(** [d[k]]: the value, or [KeyError]. *)
Fixpoint getitem {V : Type} (d : list (pystr * V)) (k : pystr) : option V :=
  match d with
  | [] => None
  | (k', v) :: d' => if pystr_eqb k' k then Some v else getitem d' k
  end.

(** Line 120: [temperature = temp_map[summary_length]]. *)
Definition temperature (summary_length : SummaryLength) : option float :=
  getitem temp_map (length_label summary_length).

Record Options := mkOptions {
  summary_length : SummaryLength;
  max_tokens : Z;
  language : Language;
  format_type : Format }.

(** Lines 137-145: the prompt f-string.  The triple-quoted literal starts
    and ends with a newline. *)
Definition nl : pystr := [10%N].

Definition prompt (o : Options) (text_input : pystr) : pystr :=
  nl ++ lit "Provide a " ++ lower (length_label (summary_length o))
     ++ lit " summary." ++ nl
  ++ nl
  ++ lit "Language: " ++ language_label (language o) ++ nl
  ++ lit "Format: " ++ format_label (format_type o) ++ nl
  ++ nl
  ++ lit "Text:" ++ nl
  ++ text_input ++ nl.

(** The length descriptor the prompt carries: the slider's label in lower
    case. *)
Definition length_descriptor (l : SummaryLength) : pystr :=
  lower (length_label l).

(** ** Metrics (lines 173-175) *)

(** [((original - summ)/original*100) if original else 0]: a [float] when
    [original] is not zero, the [int] 0 otherwise; [None] would be a
    [ZeroDivisionError]. *)
Definition reduction (original summ : nat) : option pynum :=
  if truthy (Z.of_nat original)
  then match truediv (Z.of_nat original - Z.of_nat summ) (Z.of_nat original) with
       | Some q => Some (PyFloat (PrimFloat.mul q (float_of_Z 100)))
       | None => None
       end
  else Some (PyInt 0).

(** ** Session state (lines 18-36) *)

Inductive Role := user | ai.

Definition HistoryEntry : Type := Role * pystr.

Record SessionState := mkSession {
  day : pystr;
  request_count : Z;
  daily_limit : Z;
  history : list HistoryEntry;
  input_text : pystr }.

Definition set_day (d : pystr) (s : SessionState) : SessionState :=
  mkSession d (request_count s) (daily_limit s) (history s) (input_text s).

Definition set_request_count (n : Z) (s : SessionState) : SessionState :=
  mkSession (day s) n (daily_limit s) (history s) (input_text s).

Definition set_daily_limit (n : Z) (s : SessionState) : SessionState :=
  mkSession (day s) (request_count s) n (history s) (input_text s).

Definition set_history (h : list HistoryEntry) (s : SessionState) : SessionState :=
  mkSession (day s) (request_count s) (daily_limit s) h (input_text s).

Definition set_input_text (t : pystr) (s : SessionState) : SessionState :=
  mkSession (day s) (request_count s) (daily_limit s) (history s) t.

(** [history.append((role, msg))]. *)
Definition history_append (r : Role) (msg : pystr) (s : SessionState) : SessionState :=
  set_history (history s ++ [(r, msg)]) s.

(** Lines 21-24, 31-32 and 35-36.  A session that has never run the script
    holds none of the keys ([None]); every execution that gets this far
    sets all of them, so afterwards the three [not in] tests are all false. *)
Definition init_session (today : pystr) (st : option SessionState) : SessionState :=
  match st with
  | None => mkSession today 0 50 [] []
  | Some s => s
  end.

(** Lines 26-28. *)
Definition daily_reset (today : pystr) (s : SessionState) : SessionState :=
  if negb (pystr_eqb (day s) today)
  then set_request_count 0 (set_day today s)
  else s.

(** ** Sidebar (lines 47-53) *)

Record Sidebar := mkSidebar {
  sb_used : Z;
  sb_remaining : Z;
  sb_progress : pynum }.

Definition remaining (s : SessionState) : Z :=
  Z.max 0 (daily_limit s - request_count s).

(** [used / limit if limit else 0]; [None] would be a [ZeroDivisionError].
    This is the value alone, divided through [float_of_Z]; [usage_display]
    further down divides as CPython does at any size and applies the check
    [st.progress] makes on what it is handed. *)
Definition progress_value (s : SessionState) : option pynum :=
  if truthy (daily_limit s)
  then match truediv (request_count s) (daily_limit s) with
       | Some q => Some (PyFloat q)
       | None => None
       end
  else Some (PyInt 0).

Definition sidebar (s : SessionState) : option Sidebar :=
  match progress_value s with
  | Some p => Some (mkSidebar (request_count s) (remaining s) p)
  | None => None
  end.

(** Lines 64-69. *)
Definition sample_text : pystr :=
  lit ("Blockchain technology is a decentralized digital ledger that records "
       ++ "transactions securely across multiple computers. It ensures transparency, "
       ++ "security, and trust without needing intermediaries. Blockchain is used in "
       ++ "cryptocurrency, supply chains, healthcare records, and digital identity.").

(** ** The Gemini call *)

Record ApiRequest := mkRequest {
  model : pystr;
  contents : pystr;
  req_temperature : float;
  max_output_tokens : Z }.

(** What [client.models.generate_content] does with a request: it returns
    a response whose [.text] is the string [answer], or raises [e] with
    [str(e) = txt].  A response without a text part, whose [.text] is
    [None], is not among the cases. *)
Inductive ApiResult :=
| ApiOk (answer : pystr)
| ApiErr (txt : pystr).

(** ** What one execution reports *)

Inductive Outcome :=
| NoRequest
| RejectedQuotaExceeded
| RejectedEmptyInput
| Done (answer : pystr) (original summ : nat) (reduction_percent : pynum)
| FailedQuotaError (shown_limit : Z)
| FailedGenericError (txt : pystr)
| Uncaught (e : PyExc).

Inductive Level := st_error | st_warning | st_info.

(** The [st.error], [st.warning] and [st.info] calls behind an outcome
    (lines 128, 132, 191-192 and 194). *)
Definition messages (o : Outcome) : list (Level * pystr) :=
  match o with
  | RejectedQuotaExceeded =>
      [(st_error, no_entry_sign :: lit " Daily limit reached")]
  | RejectedEmptyInput =>
      [(st_warning, lit "Enter text first")]
  | FailedQuotaError n =>
      [(st_error, no_entry_sign :: lit " Gemini quota reached");
       (st_info, lit "Daily limit: " ++ str_of_Z n)]
  | FailedGenericError txt => [(st_error, txt)]
  | _ => []
  end.

(** The handler of the Generate button either finishes without talking to
    the API, or issues one request and continues with its result. *)
Inductive Handler :=
| Finished (s : SessionState) (o : Outcome)
| Call (req : ApiRequest) (k : ApiResult -> SessionState * Outcome).

(** A short table for the worked examples: the zeros of the Arabic-Indic,
    Extended Arabic-Indic and Devanagari digits. *)
Definition sample_decimal_zeros : list codepoint := [1632; 1776; 2406]%N.

Section Summarizer.

(** The decimal digits [\d] and [int()] recognise are those of the
    interpreter's Unicode database (category Nd), which grows from one
    Unicode version to the next.  Each script contributes ten consecutive
    code points; the table lists the zero of every script beyond ASCII
    (U+0660, U+06F0, U+0966, ...). *)
Variable nonascii_decimal_zeros : list codepoint.

Definition is_digit (c : codepoint) : bool :=
  if (c <? 128)%N then ((48 <=? c) && (c <=? 57))%N
  else existsb (fun z => ((z <=? c) && (c <? z + 10))%N) nonascii_decimal_zeros.

Definition digit_value (c : codepoint) : Z :=
  if (c <? 128)%N then Z.of_N (c - 48)
  else match find (fun z => ((z <=? c) && (c <? z + 10))%N) nonascii_decimal_zeros with
       | Some z => Z.of_N (c - z)
       | None => 0
       end.

(** [int(g)] on a string of decimal digits, for runs of digits no longer
    than the interpreter's cap ([int_max_str_digits], where there is one). *)
Definition int_of_digits (g : pystr) : Z :=
  fold_left (fun acc c => 10 * acc + digit_value c) g 0.

(** *** [re.search(r'quotaValue[^\d]*(\d+)', txt)] (line 187)

    The result is group 1 of the leftmost match, [None] when nothing
    matches.  The matcher follows the backtracking engine: at each start
    position the literal, then the greedy star, which tries its longest
    run first and gives characters back one at a time, then the group. *)

Definition quotaValue : pystr := lit "quotaValue".

Fixpoint take_digits (s : pystr) : pystr :=
  match s with
  | c :: s' => if is_digit c then c :: take_digits s' else []
  | [] => []
  end.

(** [(\d+)] at the end of the pattern: the longest run of digits, at
    least one. *)
Definition plus_digits (s : pystr) : option pystr :=
  match take_digits s with
  | [] => None
  | g => Some g
  end.

(** [[^\d]*(\d+)]. *)
Fixpoint star_then_digits (s : pystr) : option pystr :=
  match s with
  | c :: s' =>
      if negb (is_digit c)
      then match star_then_digits s' with
           | Some g => Some g
           | None => plus_digits s
           end
      else plus_digits s
  | [] => plus_digits []
  end.

Definition match_at (s : pystr) : option pystr :=
  if startswith quotaValue s
  then star_then_digits (skipn (len quotaValue) s)
  else None.

Fixpoint re_search (s : pystr) : option pystr :=
  match match_at s with
  | Some g => Some g
  | None => match s with
            | [] => None
            | _ :: s' => re_search s'
            end
  end.

(** *** The specification's words for the same search: the first integer
    following the token [quotaValue]. *)

(** What follows the first occurrence of the token. *)
Fixpoint after_token (s : pystr) : option pystr :=
  if startswith quotaValue s then Some (skipn (len quotaValue) s)
  else match s with
       | [] => None
       | _ :: s' => after_token s'
       end.

(** The first maximal run of digits. *)
Fixpoint first_integer (s : pystr) : option pystr :=
  match s with
  | [] => None
  | c :: s' => if is_digit c then Some (take_digits s) else first_integer s'
  end.

Definition reported_limit (txt : pystr) : option Z :=
  match after_token txt with
  | Some r => option_map int_of_digits (first_integer r)
  | None => None
  end.

(** ** The Generate handler (lines 123-194) *)

(** Line 161. *)
Definition preview (text_input : pystr) : pystr :=
  page_facing_up :: lit " Text submitted ("
    ++ str_of_nat (len (split text_input)) ++ lit " words)".

(** Lines 182-194: the [except] branch, with [txt = str(e)]. *)
Definition on_exception (s : SessionState) (txt : pystr) : SessionState * Outcome :=
  if contains (lit "RESOURCE_EXHAUSTED") txt || contains (lit "429") txt
  then
    let s' := match re_search txt with
              | Some g => set_daily_limit (int_of_digits g) s
              | None => s
              end in
    (s', FailedQuotaError (daily_limit s'))
  else (s, FailedGenericError txt).

(** Lines 157-180: the rest of the [try] block once the call has returned.
    A [ZeroDivisionError] from the metric would be caught by the handler's
    own [except]; its message is [division by zero]. *)
Definition on_success (s : SessionState) (text_input answer : pystr)
  : SessionState * Outcome :=
  let s1 := set_request_count (request_count s + 1) s in
  let s2 := history_append user (preview text_input) s1 in
  let s3 := history_append ai answer s2 in
  let original := len (split text_input) in
  let summ := len (split answer) in
  match reduction original summ with
  | Some r => (s3, Done answer original summ r)
  | None => on_exception s3 (lit "division by zero")
  end.

Definition on_response (s : SessionState) (text_input : pystr) (r : ApiResult)
  : SessionState * Outcome :=
  match r with
  | ApiOk answer => on_success s text_input answer
  | ApiErr txt => on_exception s txt
  end.

(** Lines 148-155: the arguments of [generate_content]. *)
Definition api_request (o : Options) (temp : float) (text_input : pystr) : ApiRequest :=
  mkRequest (lit "gemini-2.5-flash") (prompt o text_input) temp (max_tokens o).

Definition generate (o : Options) (temp : float) (s : SessionState) : Handler :=
  let text_input := input_text s in
  if request_count s >=? daily_limit s then Finished s RejectedQuotaExceeded
  else if negb (match strip text_input with [] => false | _ => true end)
  then Finished s RejectedEmptyInput
  else Call (api_request o temp text_input) (on_response s text_input).

(** ** One execution of the script *)

(** At most one button is pressed in an execution. *)
Inductive Click := NoClick | ClearChat | LoadSample | GenerateSummary.

(** Lines 77-90: no file, a file whose text was obtained, or a PDF that
    could not be read. *)
Inductive Upload := NoFile | FileText (t : pystr) | PdfFailed.

Record RunInput := mkInput {
  today : pystr;
  text_area : option pystr;  (* the text box as edited since the last execution *)
  click : Click;
  uploaded : Upload;
  options : Options;
  api : ApiRequest -> ApiResult }.

Record RunResult := mkResult {
  state : SessionState;
  outcome : Outcome;
  calls : list ApiRequest }.

(** Lines 19-36, with the edited text box stored under its key. *)
Definition startup (i : RunInput) (st : option SessionState) : SessionState :=
  let s := daily_reset (today i) (init_session (today i) st) in
  match text_area i with
  | Some t => set_input_text t s
  | None => s
  end.

(** Lines 55-90: what the buttons and the uploader do to the state. *)
Definition widgets (i : RunInput) (s : SessionState) : SessionState :=
  let s := match click i with ClearChat => set_history [] s | _ => s end in
  let s := match click i with LoadSample => set_input_text sample_text s | _ => s end in
  match uploaded i with
  | FileText t => set_input_text t s
  | _ => s
  end.

(** One execution in which no library call stops the script; [script],
    further down, is the execution with the stops of lines 51 and 79. *)
Definition run (i : RunInput) (st : option SessionState) : RunResult :=
  let s := startup i st in
  match sidebar s with
  | None => mkResult s (Uncaught ZeroDivisionError) []
  | Some _ =>
      let s := widgets i s in
      match temperature (summary_length (options i)) with
      | None => mkResult s (Uncaught KeyError) []
      | Some temp =>
          match click i with
          | GenerateSummary =>
              match generate (options i) temp s with
              | Finished s' o => mkResult s' o []
              | Call req k => let (s', o) := k (api i req) in mkResult s' o [req]
              end
          | _ => mkResult s NoRequest []
          end
      end
  end.

(** A series of executions of one session. *)
Fixpoint runs (inputs : list RunInput) (st : option SessionState)
  : option SessionState :=
  match inputs with
  | [] => st
  | i :: inputs' => runs inputs' (Some (state (run i st)))
  end.

(** Every execution of a series, with what it reported. *)
Fixpoint results (inputs : list RunInput) (st : option SessionState)
  : list RunResult :=
  match inputs with
  | [] => []
  | i :: inputs' => run i st :: results inputs' (Some (state (run i st)))
  end.

(** The session states a session can be in between two executions. *)
Inductive reachable : SessionState -> Prop :=
| reach_first i : reachable (state (run i None))
| reach_next i s : reachable s -> reachable (state (run i (Some s))).

(** The state the Generate handler starts from. *)
Definition before_handler (i : RunInput) (st : option SessionState) : SessionState :=
  widgets i (startup i st).

Definition is_done (o : Outcome) : bool :=
  match o with
  | Done _ _ _ _ => true
  | _ => false
  end.

(** The fixed table of the specification. *)
Definition spec_temperature (l : SummaryLength) : float :=
  match l with
  | very_short => 0.1
  | short => 0.3
  | balanced => 0.5
  | detailed => 0.7
  | very_detailed => 0.9
  end.

(** The preview string as the specification spells it. *)
Definition spec_preview (text_input : pystr) : pystr :=
  lit "Text submitted (" ++ str_of_nat (len (split text_input)) ++ lit " words)".

Definition not_digit (c : codepoint) : Prop := is_digit c = false.

(** Inputs for the worked examples: a Generate request on a given day, with
    the options the widgets start with and an API that answers [r]. *)
Definition example_options : Options := mkOptions balanced 300 English paragraph.

Definition example_day : pystr := lit "2024-05-01".

Definition example_next_day : pystr := lit "2024-05-02".

Definition example_session (used limit : Z) (text : pystr) : SessionState :=
  mkSession example_day used limit [] text.

Definition example_request (d : pystr) (r : ApiResult) : RunInput :=
  mkInput d None GenerateSummary NoFile example_options (fun _ => r).

(** ** The conversation display (lines 196-203) *)

(** U+1F7E2 (line 201) and U+1F916 (line 203). *)
Definition green_circle : codepoint := 128994%N.
Definition robot_face : codepoint := 129302%N.

(** One [st.markdown] line per history entry. *)
Definition render_entry (e : HistoryEntry) : pystr :=
  match fst e with
  | user => green_circle :: lit " **You:** " ++ snd e
  | ai => robot_face :: lit " **AI:** " ++ snd e
  end.

(** [st.stop()] (lines 129 and 133) and an uncaught exception end the
    script before it reaches the conversation. *)
Definition stops (o : Outcome) : bool :=
  match o with
  | RejectedQuotaExceeded | RejectedEmptyInput | Uncaught _ => true
  | _ => false
  end.

(** The conversation an execution shows: nothing when the script stopped
    early, otherwise the history it leaves, line by line. *)
Definition conversation (r : RunResult) : option (list pystr) :=
  if stops (outcome r) then None
  else Some (map render_entry (history (state r))).

Definition is_quota_error (o : Outcome) : bool :=
  match o with
  | FailedQuotaError _ => true
  | _ => false
  end.

(** The request a Generate click sends when both checks pass. *)
Definition request_of (i : RunInput) (st : option SessionState) : ApiRequest :=
  api_request (options i) (spec_temperature (summary_length (options i)))
              (input_text (before_handler i st)).

(** Whether the text under the cursor continues a word: the state
    [str.split()] is in after reading [s], having started inside a word or
    not. *)
Fixpoint in_word (b : bool) (s : pystr) : bool :=
  match s with
  | [] => b
  | c :: s' => in_word (negb (isspace c)) s'
  end.

(** Whether [s] begins with a character of a word. *)
Definition starts_word (s : pystr) : bool :=
  match s with
  | c :: _ => negb (isspace c)
  | [] => false
  end.

Definition nonempty (s : pystr) : bool :=
  match s with
  | [] => false
  | _ => true
  end.

(** What comes right after a number: the end of the text or a character
    that is not a digit. *)
Definition starts_digit_free (s : pystr) : Prop :=
  match s with
  | [] => True
  | c :: _ => is_digit c = false
  end.

(** Two more inputs for the worked examples: a Generate request with a text
    typed into the box, and an execution that only presses a button. *)
Definition example_typed (d text : pystr) (r : ApiResult) : RunInput :=
  mkInput d (Some text) GenerateSummary NoFile example_options (fun _ => r).

Definition example_click (d : pystr) (c : Click) : RunInput :=
  mkInput d None c NoFile example_options (fun _ => ApiErr []).

(** ** The script with the library calls that can stop it *)

(** [a / b] on two [int]s of any size, as CPython computes it: the exact
    quotient rounded to the nearest binary64, ties to even; [None] is
    [ZeroDivisionError] for [b == 0] and [OverflowError] for a quotient too
    large for a float.  The quotient is taken with at least 55 bits and a
    sticky bit, which is enough for the rounding to be that of the exact
    value. *)
Definition int_truediv (a b : Z) : option float :=
  if b =? 0 then None
  else
    let negative := xorb (a <? 0) (b <? 0) in
    let n := Z.abs a in
    let d := Z.abs b in
    let k := Z.max 0 (55 + Z.log2 d - Z.log2 n) in
    let q := Z.shiftl n k / d in
    let sticky := if Z.shiftl n k mod d =? 0 then 0 else 1 in
    let m := 2 * q + sticky in
    let r := SF2Prim (binary_normalize prec emax
                        (if negative then - m else m) (- k - 1) negative) in
    if PrimFloat.is_infinity r then None else Some r.

(** [st.progress(value)]: Streamlit takes an [int] from 0 to 100 or a
    [float] from 0.0 to 1.0 and raises [StreamlitAPIException] for any
    other value. *)
Definition st_progress (v : pynum) : bool :=
  match v with
  | PyInt z => (0 <=? z) && (z <=? 100)
  | PyFloat f => PrimFloat.leb 0%float f && PrimFloat.leb f 1%float
  end.

(** Lines 47-53 as the page gets them: [None] when line 51 raises, in the
    division or in [st.progress], so that nothing of the usage is written. *)
Definition usage_display (s : SessionState) : option Sidebar :=
  let used := request_count s in
  let limit := daily_limit s in
  let remaining := Z.max 0 (limit - used) in
  let value := if truthy limit
               then option_map PyFloat (int_truediv used limit)
               else Some (PyInt 0) in
  match value with
  | Some v => if st_progress v then Some (mkSidebar used remaining v) else None
  | None => None
  end.

(** Lines 55-69: the two buttons above the uploader. *)
Definition buttons (i : RunInput) (s : SessionState) : SessionState :=
  let s := match click i with ClearChat => set_history [] s | _ => s end in
  match click i with LoadSample => set_input_text sample_text s | _ => s end.

(** An execution either runs to its end or is stopped by an exception no
    handler catches; either way the session keeps what was stored so far. *)
Inductive Execution :=
| Raised (line : nat) (s : SessionState)
| Completed (r : RunResult).

(** The script as Streamlit executes it.  Line 51 stops it when the usage
    cannot be displayed.  Line 79 stops it when a plain-text file is in the
    uploader ([FileText]): Streamlit refuses an assignment to the key of
    the text box once the box of line 71 exists.  The same assignment at
    line 88 is inside the [try], so a PDF always ends in the warning of
    line 90, which is [PdfFailed].  Everything else is [run]. *)
Definition script (i : RunInput) (st : option SessionState) : Execution :=
  let s := startup i st in
  match usage_display s with
  | None => Raised 51 s
  | Some _ =>
      match uploaded i with
      | FileText _ => Raised 79 (buttons i s)
      | _ => Completed (run i st)
      end
  end.

Definition session_after (e : Execution) : SessionState :=
  match e with
  | Raised _ s => s
  | Completed r => state r
  end.

(** A series of executions of the script in one session. *)
Fixpoint executions (inputs : list RunInput) (st : option SessionState)
  : list Execution :=
  match inputs with
  | [] => []
  | i :: inputs' =>
      script i st :: executions inputs' (Some (session_after (script i st)))
  end.

Definition text_file_uploaded (i : RunInput) : bool :=
  match uploaded i with
  | FileText _ => true
  | _ => false
  end.

(** The default of [sys.get_int_max_str_digits()] in CPython 3.11 and
    later: [int()] raises [ValueError] on a longer run of digits. *)
Definition int_max_str_digits : nat := 4300.

Definition example_used_up : list RunInput :=
  [example_typed example_day (lit "hello world") (ApiOk (lit "hi"));
   example_request example_day (ApiOk (lit "hi"));
   example_request example_day (ApiOk (lit "hi"));
   example_request example_day (ApiErr (lit "429 quotaValue: 2"))].

(** The session a series of executions of the script leaves. *)
Fixpoint after_executions (inputs : list RunInput) (st : option SessionState)
  : option SessionState :=
  match inputs with
  | [] => st
  | i :: inputs' => after_executions inputs' (Some (session_after (script i st)))
  end.

(** ** Strings *)

Lemma pystr_eqb_eq (a b : pystr) : pystr_eqb a b = true <-> a = b.
Proof.
  unfold pystr_eqb. destruct (list_eq_dec N.eq_dec a b); split; congruence.
Qed.

Lemma pystr_eqb_refl (a : pystr) : pystr_eqb a a = true.
Proof. now apply pystr_eqb_eq. Qed.

Lemma startswith_app (p r : pystr) : startswith p (p ++ r) = true.
Proof.
  induction p as [|a p IH]; simpl; [reflexivity|].
  now rewrite N.eqb_refl.
Qed.

Lemma startswith_inv (p s : pystr) :
  startswith p s = true -> s = p ++ skipn (len p) s.
Proof.
  revert s. induction p as [|a p IH]; intros s H; [reflexivity|].
  destruct s as [|b s]; simpl in H; [discriminate|].
  apply andb_true_iff in H. destruct H as [Hab Hps].
  apply N.eqb_eq in Hab. subst b. simpl. f_equal. now apply IH.
Qed.

Lemma contains_eq (n s : pystr) :
  contains n s =
  startswith n s || match s with [] => false | _ :: s' => contains n s' end.
Proof. destruct s; reflexivity. Qed.

Lemma contains_substring (n s : pystr) : contains n s = true <-> substring n s.
Proof.
  split.
  - induction s as [|a s IH]; rewrite contains_eq; intros H;
      apply orb_true_iff in H; destruct H as [H|H].
    + exists [], (skipn (len n) []). now apply startswith_inv.
    + discriminate.
    + exists [], (skipn (len n) (a :: s)). now apply startswith_inv.
    + destruct (IH H) as (pre & post & E). exists (a :: pre), post.
      simpl. now f_equal.
  - intros (pre & post & E). subst s.
    induction pre as [|a pre IH].
    + rewrite contains_eq. simpl app. now rewrite startswith_app.
    + change ((a :: pre) ++ n ++ post) with (a :: (pre ++ n ++ post)).
      rewrite contains_eq, IH. apply orb_true_r.
Qed.

Lemma lstrip_nil (s : pystr) : lstrip s = [] <-> forallb isspace s = true.
Proof.
  induction s as [|a s IH]; simpl; [tauto|].
  destruct (isspace a); simpl; [exact IH|].
  split; discriminate.
Qed.

Lemma lstrip_blank (s : pystr) :
  forallb isspace (lstrip s) = true <-> forallb isspace s = true.
Proof.
  induction s as [|a s IH]; simpl; [tauto|].
  destruct (isspace a) eqn:Ha; simpl; [exact IH|].
  now rewrite Ha.
Qed.

Lemma forallb_rev (f : codepoint -> bool) (s : pystr) :
  forallb f (rev s) = forallb f s.
Proof.
  induction s as [|a s IH]; simpl; [reflexivity|].
  rewrite forallb_app, IH. simpl. rewrite andb_true_r. apply andb_comm.
Qed.

(** [not s.strip()] holds exactly for the texts made of whitespace only. *)
Lemma strip_nil (s : pystr) : strip s = [] <-> forallb isspace s = true.
Proof.
  unfold strip. rewrite <- lstrip_blank, <- (forallb_rev isspace (lstrip s)).
  rewrite <- lstrip_nil. split; intros H.
  - now apply (f_equal (@rev codepoint)) in H; rewrite rev_involutive in H.
  - now rewrite H.
Qed.

Lemma split_from_nil (cur s : pystr) :
  split_from cur s = [] <-> cur = [] /\ forallb isspace s = true.
Proof.
  revert cur. induction s as [|a s IH]; intros cur; simpl.
  - destruct cur; split; intros H; try discriminate; try tauto.
    now destruct H.
  - destruct (isspace a); simpl.
    + destruct cur; [apply IH|]. split; [discriminate|]. now intros [H _].
    + rewrite IH. split; [intros [H _]; discriminate | intros [_ H]; discriminate].
Qed.

(** A text has no word exactly when it is blank. *)
Lemma split_nil (s : pystr) : split s = [] <-> strip s = [].
Proof.
  unfold split. rewrite split_from_nil, strip_nil. tauto.
Qed.

(** ** The quota value of an error message *)

Lemma re_search_eq (s : pystr) :
  re_search s =
  match match_at s with
  | Some g => Some g
  | None => match s with [] => None | _ :: s' => re_search s' end
  end.
Proof. destruct s; reflexivity. Qed.

Lemma after_token_eq (s : pystr) :
  after_token s =
  if startswith quotaValue s then Some (skipn (len quotaValue) s)
  else match s with [] => None | _ :: s' => after_token s' end.
Proof. destruct s; reflexivity. Qed.

Lemma take_digits_cons (c : codepoint) (s : pystr) :
  is_digit c = true -> take_digits (c :: s) = c :: take_digits s.
Proof. intros H. simpl. now rewrite H. Qed.

(** Giving characters back never helps the star: what it gives back are
    not digits.  So the greedy match is the first run of digits. *)
Lemma star_then_digits_first_integer (s : pystr) :
  star_then_digits s = first_integer s.
Proof.
  induction s as [|a s IH]; [reflexivity|].
  cbn [star_then_digits first_integer]. unfold plus_digits.
  destruct (is_digit a) eqn:Ha; cbn [negb].
  - now rewrite (take_digits_cons a s Ha).
  - rewrite IH. destruct (first_integer s); [reflexivity|].
    simpl. now rewrite Ha.
Qed.

Lemma first_integer_none (s : pystr) :
  first_integer s = None <-> Forall not_digit s.
Proof.
  induction s as [|a s IH]; simpl.
  - split; [constructor | reflexivity].
  - destruct (is_digit a) eqn:Ha.
    + split; [discriminate|]. intros H. inversion H; subst.
      unfold not_digit in *. congruence.
    + rewrite IH. split; intros H; [now constructor | now inversion H].
Qed.

Lemma Forall_skipn {A : Type} (P : A -> Prop) (n : nat) (l : list A) :
  Forall P l -> Forall P (skipn n l).
Proof.
  revert l. induction n as [|n IH]; intros l H; [exact H|].
  destruct l as [|a l]; [constructor|]. simpl. apply IH. now inversion H.
Qed.

(** Where no digit follows, a later start position cannot match either. *)
Lemma re_search_no_digit (s : pystr) (k : nat) :
  (k <= len quotaValue)%nat -> Forall not_digit (skipn k s) -> re_search s = None.
Proof.
  revert k. induction s as [|a s IH]; intros k Hk H.
  - reflexivity.
  - rewrite re_search_eq. unfold match_at.
    assert (Hs : star_then_digits (skipn (len quotaValue) (a :: s)) = None).
    { rewrite star_then_digits_first_integer. apply first_integer_none.
      replace (len quotaValue) with ((len quotaValue - k) + k)%nat by lia.
      rewrite <- skipn_skipn. now apply Forall_skipn. }
    rewrite Hs. destruct (startswith quotaValue (a :: s)).
    + destruct k as [|k].
      * apply (IH 0%nat); [lia|]. simpl in H. now inversion H.
      * apply (IH k); [lia|]. exact H.
    + destruct k as [|k].
      * apply (IH 0%nat); [lia|]. simpl in H. now inversion H.
      * apply (IH k); [lia|]. exact H.
Qed.

(** The regular expression finds the first integer that follows the first
    occurrence of the token. *)
Lemma re_search_first_integer (txt : pystr) :
  re_search txt =
  match after_token txt with
  | Some r => first_integer r
  | None => None
  end.
Proof.
  induction txt as [|a txt IH]; [reflexivity|].
  rewrite re_search_eq, after_token_eq. unfold match_at.
  destruct (startswith quotaValue (a :: txt)) eqn:Hst.
  - rewrite star_then_digits_first_integer.
    destruct (first_integer (skipn (len quotaValue) (a :: txt))) eqn:Hf;
      [reflexivity|].
    apply (re_search_no_digit txt (len quotaValue - 1)); [lia|].
    apply first_integer_none in Hf. exact Hf.
  - exact IH.
Qed.

Lemma re_search_reported_limit (txt : pystr) :
  option_map int_of_digits (re_search txt) = reported_limit txt.
Proof.
  unfold reported_limit. rewrite re_search_first_integer.
  now destruct (after_token txt).
Qed.

(** What [after_token] and [first_integer] compute, in terms of the text. *)

Lemma after_token_first (s r : pystr) :
  after_token s = Some r ->
  exists pre, s = pre ++ quotaValue ++ r /\
    forall pre' r', s = pre' ++ quotaValue ++ r' -> (len pre <= len pre')%nat.
Proof.
  revert r. induction s as [|a s IH]; intros r; rewrite after_token_eq;
    destruct (startswith quotaValue _) eqn:Hst; intros H; try discriminate.
  - injection H as <-. exists []. split; [now apply startswith_inv|].
    intros; simpl; lia.
  - destruct (IH r H) as (pre & E & Hmin). exists (a :: pre). split.
    + simpl. now f_equal.
    + intros pre' r' E'. destruct pre' as [|b pre'].
      * change ([] ++ quotaValue ++ r') with (quotaValue ++ r') in E'.
        rewrite E', startswith_app in Hst. discriminate.
      * injection E' as _ E'. apply Hmin in E'. simpl. lia.
Qed.

Lemma after_token_none (s : pystr) :
  after_token s = None <-> ~ substring quotaValue s.
Proof.
  rewrite <- contains_substring.
  induction s as [|a s IH]; rewrite after_token_eq, contains_eq;
    destruct (startswith quotaValue _); simpl.
  - split; [discriminate | intros H; now elim H].
  - split; [discriminate | reflexivity].
  - split; [discriminate | intros H; now elim H].
  - exact IH.
Qed.

Lemma take_digits_split (s : pystr) :
  exists rest, s = take_digits s ++ rest /\
    Forall (fun c => is_digit c = true) (take_digits s) /\
    match rest with [] => True | c :: _ => not_digit c end.
Proof.
  induction s as [|a s (rest & E & Hd & Hr)]; simpl.
  - exists []. repeat split. constructor.
  - destruct (is_digit a) eqn:Ha.
    + exists rest. repeat split; [simpl; now f_equal | now constructor | exact Hr].
    + exists (a :: s). repeat split. constructor. exact Ha.
Qed.

Lemma first_integer_some (s g : pystr) :
  first_integer s = Some g ->
  exists mid rest, s = mid ++ g ++ rest /\
    Forall not_digit mid /\ g <> [] /\
    Forall (fun c => is_digit c = true) g /\
    match rest with [] => True | c :: _ => not_digit c end.
Proof.
  revert g. induction s as [|a s IH]; intros g H; [discriminate|].
  cbn [first_integer] in H. destruct (is_digit a) eqn:Ha.
  - injection H as <-.
    destruct (take_digits_split (a :: s)) as (rest & E & Hd & Hr).
    exists [], rest. repeat split; try assumption; [constructor|].
    rewrite Ha. discriminate.
  - destruct (IH g H) as (mid & rest & E & Hm & Hg & Hd & Hr).
    exists (a :: mid), rest. repeat split; try assumption.
    + simpl. now f_equal.
    + now constructor.
Qed.

Lemma digit_value_nonneg (c : codepoint) : 0 <= digit_value c.
Proof.
  unfold digit_value. destruct (c <? 128)%N; [apply N2Z.is_nonneg|].
  destruct (find _ _); [apply N2Z.is_nonneg | lia].
Qed.

Lemma int_of_digits_nonneg (g : pystr) : 0 <= int_of_digits g.
Proof.
  unfold int_of_digits.
  assert (H : forall acc, 0 <= acc ->
            0 <= fold_left (fun acc c => 10 * acc + digit_value c) g acc).
  { induction g as [|c g IH]; intros acc Hacc; cbn [fold_left]; [exact Hacc|].
    apply IH. pose proof (digit_value_nonneg c). lia. }
  apply H. lia.
Qed.

(** ** One execution, case by case *)

Lemma truediv_total (a b : Z) : b <> 0 -> exists q, truediv a b = Some q.
Proof.
  intros H. unfold truediv. apply Z.eqb_neq in H. rewrite H. eauto.
Qed.

Lemma progress_value_total (s : SessionState) :
  exists p, progress_value s = Some p.
Proof.
  unfold progress_value, truthy, truediv.
  destruct (daily_limit s =? 0); simpl; eauto.
Qed.

Lemma sidebar_total (s : SessionState) : exists sb, sidebar s = Some sb.
Proof.
  unfold sidebar. destruct (progress_value_total s) as [p ->]. eauto.
Qed.

Lemma reduction_total (original summ : nat) :
  exists r, reduction original summ = Some r.
Proof.
  unfold reduction, truthy, truediv.
  destruct (Z.of_nat original =? 0); simpl; eauto.
Qed.

Lemma temperature_table (l : SummaryLength) :
  temperature l = Some (spec_temperature l).
Proof. destruct l; reflexivity. Qed.

Lemma run_eq (i : RunInput) (st : option SessionState) :
  run i st =
  match click i with
  | GenerateSummary =>
      match generate (options i) (spec_temperature (summary_length (options i)))
                     (before_handler i st) with
      | Finished s' o => mkResult s' o []
      | Call req k => let (s', o) := k (api i req) in mkResult s' o [req]
      end
  | _ => mkResult (before_handler i st) NoRequest []
  end.
Proof.
  unfold run, before_handler.
  destruct (sidebar_total (startup i st)) as [sb ->].
  now rewrite temperature_table.
Qed.

Lemma generate_quota (o : Options) (t : float) (s : SessionState) :
  daily_limit s <= request_count s ->
  generate o t s = Finished s RejectedQuotaExceeded.
Proof.
  intros H. unfold generate.
  destruct (request_count s >=? daily_limit s) eqn:E; [reflexivity|].
  rewrite Z.geb_leb in E. apply Z.leb_gt in E. lia.
Qed.

Lemma generate_empty (o : Options) (t : float) (s : SessionState) :
  request_count s < daily_limit s -> strip (input_text s) = [] ->
  generate o t s = Finished s RejectedEmptyInput.
Proof.
  intros H E. unfold generate. rewrite E.
  destruct (request_count s >=? daily_limit s) eqn:G; [|reflexivity].
  rewrite Z.geb_leb in G. apply Z.leb_le in G. lia.
Qed.

Lemma generate_call (o : Options) (t : float) (s : SessionState) :
  request_count s < daily_limit s -> strip (input_text s) <> [] ->
  generate o t s =
  Call (api_request o t (input_text s)) (on_response s (input_text s)).
Proof.
  intros H E. unfold generate.
  destruct (request_count s >=? daily_limit s) eqn:G.
  - rewrite Z.geb_leb in G. apply Z.leb_le in G. lia.
  - destruct (strip (input_text s)); [congruence | reflexivity].
Qed.

Lemma on_success_eq (s : SessionState) (text_input answer : pystr) :
  exists r,
    reduction (len (split text_input)) (len (split answer)) = Some r /\
    on_success s text_input answer =
    (history_append ai answer
       (history_append user (preview text_input)
          (set_request_count (request_count s + 1) s)),
     Done answer (len (split text_input)) (len (split answer)) r).
Proof.
  destruct (reduction_total (len (split text_input)) (len (split answer)))
    as [r Hr].
  exists r. split; [exact Hr|]. unfold on_success. now rewrite Hr.
Qed.

Lemma on_exception_not_done (s : SessionState) (txt : pystr) :
  is_done (snd (on_exception s txt)) = false.
Proof.
  unfold on_exception. now destruct (_ || _).
Qed.

(** The [except] branch touches nothing but [daily_limit]. *)
Lemma on_exception_state (s : SessionState) (txt : pystr) :
  fst (on_exception s txt) =
  set_daily_limit (daily_limit (fst (on_exception s txt))) s.
Proof.
  unfold on_exception. destruct (_ || _); [|now destruct s].
  destruct (re_search txt); now destruct s.
Qed.

(** ** What reaches the handler *)

Ltac unfold_before_handler :=
  unfold before_handler, widgets, startup, daily_reset, init_session.

Lemma before_handler_daily_limit (i : RunInput) (s : SessionState) :
  daily_limit (before_handler i (Some s)) = daily_limit s.
Proof.
  unfold_before_handler.
  destruct (pystr_eqb (day s) (today i)), (text_area i), (click i), (uploaded i);
    reflexivity.
Qed.

Lemma before_handler_request_count (i : RunInput) (s : SessionState) :
  request_count (before_handler i (Some s)) =
  if pystr_eqb (day s) (today i) then request_count s else 0.
Proof.
  unfold_before_handler.
  destruct (pystr_eqb (day s) (today i)), (text_area i), (click i), (uploaded i);
    reflexivity.
Qed.

Lemma before_handler_day (i : RunInput) (st : option SessionState) :
  day (before_handler i st) = today i.
Proof.
  unfold_before_handler. destruct st as [s|].
  - destruct (pystr_eqb (day s) (today i)) eqn:E;
      [apply pystr_eqb_eq in E|];
      destruct (text_area i), (click i), (uploaded i); simpl; congruence.
  - cbn [day]. rewrite pystr_eqb_refl.
    destruct (text_area i), (click i), (uploaded i); reflexivity.
Qed.

Lemma before_handler_history (i : RunInput) (s : SessionState) :
  history (before_handler i (Some s)) =
  match click i with ClearChat => [] | _ => history s end.
Proof.
  unfold_before_handler.
  destruct (pystr_eqb (day s) (today i)), (text_area i), (click i), (uploaded i);
    reflexivity.
Qed.

(** A run that ends in [Done] pressed Generate, passed both checks, got an
    answer from the API, and went through the success branch. *)
Lemma run_done_inv (i : RunInput) (st : option SessionState) :
  is_done (outcome (run i st)) = true ->
  let s := before_handler i st in
  let req := api_request (options i)
               (spec_temperature (summary_length (options i))) (input_text s) in
  click i = GenerateSummary /\
  request_count s < daily_limit s /\
  strip (input_text s) <> [] /\
  calls (run i st) = [req] /\
  exists answer,
    api i req = ApiOk answer /\
    state (run i st) = fst (on_success s (input_text s) answer) /\
    outcome (run i st) = snd (on_success s (input_text s) answer).
Proof.
  intros H s req. rewrite run_eq in *. fold s in H |- *.
  destruct (click i); try discriminate.
  destruct (Z_lt_le_dec (request_count s) (daily_limit s)) as [Hq|Hq];
    [|rewrite generate_quota in H by exact Hq; discriminate].
  destruct (strip (input_text s)) eqn:Hs;
    [rewrite generate_empty in H by assumption; discriminate|].
  assert (Hne : strip (input_text s) <> []) by congruence.
  rewrite generate_call in * by assumption. fold req in H |- *.
  rewrite <- Hs.
  unfold on_response in *. destruct (api i req) as [answer|txt] eqn:Hapi.
  - destruct (on_success s (input_text s) answer) as [s' o] eqn:Hos.
    repeat split; try assumption. exists answer. rewrite Hos. now repeat split.
  - pose proof (on_exception_not_done s txt) as Hn.
    destruct (on_exception s txt) as [s' o]. simpl in H, Hn. congruence.
Qed.

Lemma run_calls (i : RunInput) (st : option SessionState) :
  calls (run i st) = [] \/
  calls (run i st) =
    [api_request (options i) (spec_temperature (summary_length (options i)))
       (input_text (before_handler i st))].
Proof.
  rewrite run_eq. destruct (click i); auto.
  unfold generate. destruct (_ >=? _); auto.
  destruct (negb _); auto.
  destruct (on_response _ _ _). auto.
Qed.

(** ** The claims *)

(** C6: the temperature is read from the fixed table, very_short -> 0.1,
    short -> 0.3, balanced -> 0.5, detailed -> 0.7, very_detailed -> 0.9:
    the lookup [temp_map[summary_length]] never fails and returns these
    values, and every request sent to the API carries the value of the
    chosen length. *)
Theorem temperature_fixed_table :
  temperature very_short = Some 0.1%float /\
  temperature short = Some 0.3%float /\
  temperature balanced = Some 0.5%float /\
  temperature detailed = Some 0.7%float /\
  temperature very_detailed = Some 0.9%float /\
  forall (i : RunInput) (st : option SessionState),
    Forall (fun req => temperature (summary_length (options i))
                       = Some (req_temperature req))
           (calls (run i st)).
Proof.
  repeat (split; [reflexivity|]).
  intros i st. destruct (run_calls i st) as [-> | ->]; constructor; [|constructor].
  apply temperature_table.
Qed.

(** C7: the prompt contains the length descriptor (the slider's label in
    lower case), the language, the format and the input text, each as a
    contiguous block; the text sits between a prefix that does not depend
    on it and the closing newline; and the request sent to the API has
    this prompt, built from [input_text], as its contents. *)
Theorem prompt_carries_request (o : Options) (text_input : pystr) :
  substring (length_descriptor (summary_length o)) (prompt o text_input) /\
  substring (language_label (language o)) (prompt o text_input) /\
  substring (format_label (format_type o)) (prompt o text_input) /\
  substring text_input (prompt o text_input) /\
  (exists pre, forall t, prompt o t = pre ++ t ++ nl) /\
  forall (i : RunInput) (st : option SessionState),
    Forall (fun req => contents req
                       = prompt (options i) (input_text (before_handler i st)))
           (calls (run i st)).
Proof.
  unfold substring, prompt, length_descriptor. repeat split.
  - exists (nl ++ lit "Provide a "). eexists. rewrite <- !app_assoc. reflexivity.
  - exists (nl ++ lit "Provide a " ++ lower (length_label (summary_length o))
            ++ lit " summary." ++ nl ++ nl ++ lit "Language: ").
    eexists. rewrite <- !app_assoc. reflexivity.
  - exists (nl ++ lit "Provide a " ++ lower (length_label (summary_length o))
            ++ lit " summary." ++ nl ++ nl ++ lit "Language: "
            ++ language_label (language o) ++ nl ++ lit "Format: ").
    eexists. rewrite <- !app_assoc. reflexivity.
  - exists (nl ++ lit "Provide a " ++ lower (length_label (summary_length o))
            ++ lit " summary." ++ nl ++ nl ++ lit "Language: "
            ++ language_label (language o) ++ nl ++ lit "Format: "
            ++ format_label (format_type o) ++ nl ++ nl ++ lit "Text:" ++ nl),
      nl.
    rewrite <- !app_assoc. reflexivity.
  - exists (nl ++ lit "Provide a " ++ lower (length_label (summary_length o))
            ++ lit " summary." ++ nl ++ nl ++ lit "Language: "
            ++ language_label (language o) ++ nl ++ lit "Format: "
            ++ format_label (format_type o) ++ nl ++ nl ++ lit "Text:" ++ nl).
    intros t. rewrite <- !app_assoc. reflexivity.
  - intros i st.
    destruct (run_calls i st) as [-> | ->]; constructor; [|constructor].
    reflexivity.
Qed.

(** C8: the reduction percent is [(original - summ) / original * 100] in
    floating point when [original] is not zero and the integer 0 when it
    is, so it never divides by zero; 100 and 20 words give exactly 80.0;
    and a successful request reports the metric of the whitespace-split
    word counts of the input and of the answer. *)
Theorem reduction_percent :
  (forall summ, reduction 0 summ = Some (PyInt 0)) /\
  (forall n summ,
     reduction (S n) summ =
     Some (PyFloat (PrimFloat.mul
                      (PrimFloat.div (float_of_Z (Z.of_nat (S n) - Z.of_nat summ))
                                     (float_of_Z (Z.of_nat (S n))))
                      (float_of_Z 100)))) /\
  reduction 100 20 = Some (PyFloat 80%float) /\
  (forall (s : SessionState) (text_input answer : pystr),
     exists r,
       reduction (len (split text_input)) (len (split answer)) = Some r /\
       snd (on_success s text_input answer)
       = Done answer (len (split text_input)) (len (split answer)) r).
Proof.
  split; [reflexivity|]. split; [|split; [reflexivity|]].
  - intros n summ. unfold reduction, truthy, truediv.
    replace (Z.of_nat (S n) =? 0) with false; [reflexivity|].
    symmetry. apply Z.eqb_neq. lia.
  - intros s text_input answer.
    destruct (on_success_eq s text_input answer) as (r & Hr & E).
    exists r. now rewrite E.
Qed.

(** C4: when the stored [day] is not today, the reset at the start of the
    run sets [request_count] to 0 and [day] to today and keeps
    [daily_limit]; this is the state the rest of the run works on.  The
    reset never changes [daily_limit], whatever the day. *)
Theorem daily_reset_keeps_limit :
  (forall (d : pystr) (s : SessionState),
     day s <> d ->
     request_count (daily_reset d s) = 0 /\
     day (daily_reset d s) = d /\
     daily_limit (daily_reset d s) = daily_limit s /\
     history (daily_reset d s) = history s) /\
  (forall (i : RunInput) (s : SessionState),
     day s <> today i ->
     request_count (before_handler i (Some s)) = 0 /\
     day (before_handler i (Some s)) = today i /\
     daily_limit (before_handler i (Some s)) = daily_limit s) /\
  (forall (d : pystr) (s : SessionState),
     daily_limit (daily_reset d s) = daily_limit s).
Proof.
  split; [|split].
  - intros d s H. unfold daily_reset.
    destruct (pystr_eqb (day s) d) eqn:E; [apply pystr_eqb_eq in E; contradiction|].
    now repeat split.
  - intros i s H.
    rewrite before_handler_request_count, before_handler_day,
      before_handler_daily_limit.
    destruct (pystr_eqb (day s) (today i)) eqn:E;
      [apply pystr_eqb_eq in E; contradiction|].
    now repeat split.
  - intros d s. unfold daily_reset. now destruct (negb _).
Qed.

(** ** Reachable session states *)

Lemma before_handler_nonneg (i : RunInput) (st : option SessionState) :
  match st with
  | Some s => 0 <= request_count s /\ 0 <= daily_limit s
  | None => True
  end ->
  0 <= request_count (before_handler i st) /\ 0 <= daily_limit (before_handler i st).
Proof.
  destruct st as [s|].
  - intros [Hu Hl].
    rewrite before_handler_request_count, before_handler_daily_limit.
    destruct (pystr_eqb _ _); split; assumption || lia.
  - intros _. unfold_before_handler. cbn [day]. rewrite pystr_eqb_refl.
    destruct (text_area i), (click i), (uploaded i); cbn; split; lia.
Qed.

Lemma run_nonneg (i : RunInput) (st : option SessionState) :
  match st with
  | Some s => 0 <= request_count s /\ 0 <= daily_limit s
  | None => True
  end ->
  0 <= request_count (state (run i st)) /\ 0 <= daily_limit (state (run i st)).
Proof.
  intros H. apply (before_handler_nonneg i) in H. destruct H as [Hu Hl].
  rewrite run_eq. destruct (click i); try (split; assumption).
  unfold generate. destruct (_ >=? _); [split; assumption|].
  destruct (negb _); [split; assumption|].
  unfold on_response. destruct (api i _) as [answer|txt].
  - destruct (on_success_eq (before_handler i st)
                (input_text (before_handler i st)) answer) as (r & _ & ->).
    cbn. split; lia.
  - unfold on_exception. destruct (_ || _); [|split; assumption].
    destruct (re_search txt) as [g|]; [|split; assumption].
    cbn. split; [assumption | apply int_of_digits_nonneg].
Qed.

(** The counter and the limit are never negative.  The limit can be 0, and
    the counter can exceed the limit. *)
Lemma reachable_nonneg (s : SessionState) :
  reachable s -> 0 <= request_count s /\ 0 <= daily_limit s.
Proof.
  induction 1 as [i | i s _ IH].
  - now apply run_nonneg.
  - now apply run_nonneg.
Qed.

(** C2: a call that raises leaves [request_count] and the history as they
    were; the only field the [except] branch may change is [daily_limit],
    and then to the quota value read from the message.  The same holds
    for a whole run in which the API fails, measured from the state the
    handler started from. *)
Theorem failed_call_atomic :
  (forall (s : SessionState) (text_input txt : pystr),
     let s' := fst (on_response s text_input (ApiErr txt)) in
     request_count s' = request_count s /\
     history s' = history s /\
     len (history s') = len (history s) /\
     day s' = day s /\
     input_text s' = input_text s /\
     (s' = s \/
      exists n, reported_limit txt = Some n /\ s' = set_daily_limit n s)) /\
  (forall (i : RunInput) (st : option SessionState),
     (forall req, exists txt, api i req = ApiErr txt) ->
     request_count (state (run i st)) = request_count (before_handler i st) /\
     history (state (run i st)) = history (before_handler i st)).
Proof.
  assert (A : forall s txt,
             fst (on_exception s txt) = s \/
             exists n, reported_limit txt = Some n /\
                       fst (on_exception s txt) = set_daily_limit n s).
  { intros s txt. unfold on_exception. destruct (_ || _); [|now left].
    pose proof (re_search_reported_limit txt) as R.
    destruct (re_search txt) as [g|]; [|now left].
    right. exists (int_of_digits g). now split. }
  split.
  - intros s text_input txt s'. subst s'. cbn [on_response].
    destruct (A s txt) as [-> | (n & Hn & ->)].
    + repeat split. now left.
    + repeat split. right. now exists n.
  - intros i st Hfail. rewrite run_eq. destruct (click i); try now split.
    unfold generate. destruct (_ >=? _); [now split|].
    destruct (negb _); [now split|].
    destruct (Hfail (api_request (options i)
                       (spec_temperature (summary_length (options i)))
                       (input_text (before_handler i st)))) as [txt ->].
    cbn [on_response].
    pose proof (on_exception_state (before_handler i st) txt) as E.
    destruct (on_exception (before_handler i st) txt) as [s' o].
    cbn [fst] in E. cbn [state]. rewrite E. now split.
Qed.

Lemma reported_limit_some (txt : pystr) (n : Z) :
  reported_limit txt = Some n ->
  exists pre mid g rest,
    txt = pre ++ quotaValue ++ mid ++ g ++ rest /\
    (forall pre' r', txt = pre' ++ quotaValue ++ r' -> (len pre <= len pre')%nat) /\
    Forall not_digit mid /\
    g <> [] /\
    Forall (fun c => is_digit c = true) g /\
    match rest with [] => True | c :: _ => not_digit c end /\
    n = int_of_digits g.
Proof.
  unfold reported_limit. intros H.
  destruct (after_token txt) as [r|] eqn:Ht; [|discriminate].
  destruct (first_integer r) as [g|] eqn:Hg; [|discriminate].
  injection H as <-.
  destruct (after_token_first txt r Ht) as (pre & E & Hmin).
  destruct (first_integer_some r g Hg) as (mid & rest & Er & Hm & Hne & Hd & Hr).
  exists pre, mid, g, rest. subst r. now repeat split.
Qed.

Lemma reported_limit_none (txt : pystr) :
  reported_limit txt = None ->
  ~ substring quotaValue txt \/
  exists pre r, txt = pre ++ quotaValue ++ r /\ Forall not_digit r.
Proof.
  unfold reported_limit. intros H.
  destruct (after_token txt) as [r|] eqn:Ht.
  - right. destruct (after_token_first txt r Ht) as (pre & E & _).
    exists pre, r. split; [exact E|]. apply first_integer_none.
    now destruct (first_integer r).
  - left. now apply after_token_none.
Qed.

(** C5: an error whose message contains [RESOURCE_EXHAUSTED] or [429] is
    reported as a quota error, and [daily_limit] becomes the first integer
    that follows the first [quotaValue] token of the message, whether
    lower or higher than before; with no such integer the state is
    unchanged.  Any other error is shown verbatim and changes nothing.  A
    message that contains [429] and whose first [quotaValue] token reads
    [quotaValue: 20] sets [daily_limit] to 20 and keeps [request_count].
    The last two parts say what the reported limit is in terms of the
    message: the value of the maximal run of digits that comes first after
    the leftmost token, and none when the token is absent or no digit
    follows it. *)
Theorem quota_error_adopts_reported_limit :
  (forall (s : SessionState) (txt : pystr),
     substring (lit "RESOURCE_EXHAUSTED") txt \/ substring (lit "429") txt ->
     on_exception s txt =
     match reported_limit txt with
     | Some n => (set_daily_limit n s, FailedQuotaError n)
     | None => (s, FailedQuotaError (daily_limit s))
     end) /\
  (forall (s : SessionState) (txt : pystr),
     ~ substring (lit "RESOURCE_EXHAUSTED") txt -> ~ substring (lit "429") txt ->
     on_exception s txt = (s, FailedGenericError txt) /\
     messages (FailedGenericError txt) = [(st_error, txt)]) /\
  (forall (s : SessionState) (pre post : pystr),
     let txt := pre ++ lit "quotaValue: 20" ++ post in
     substring (lit "429") txt ->
     after_token txt = Some (lit ": 20" ++ post) ->
     match post with [] => True | c :: _ => not_digit c end ->
     on_exception s txt = (set_daily_limit 20 s, FailedQuotaError 20) /\
     request_count (fst (on_exception s txt)) = request_count s) /\
  (forall (txt : pystr) (n : Z),
     reported_limit txt = Some n ->
     exists pre mid g rest,
       txt = pre ++ quotaValue ++ mid ++ g ++ rest /\
       (forall pre' r', txt = pre' ++ quotaValue ++ r' -> (len pre <= len pre')%nat) /\
       Forall not_digit mid /\
       g <> [] /\
       Forall (fun c => is_digit c = true) g /\
       match rest with [] => True | c :: _ => not_digit c end /\
       n = int_of_digits g) /\
  (forall (txt : pystr),
     reported_limit txt = None ->
     ~ substring quotaValue txt \/
     exists pre r, txt = pre ++ quotaValue ++ r /\ Forall not_digit r).
Proof.
  assert (A : forall s txt,
             substring (lit "RESOURCE_EXHAUSTED") txt \/ substring (lit "429") txt ->
             on_exception s txt =
             match reported_limit txt with
             | Some n => (set_daily_limit n s, FailedQuotaError n)
             | None => (s, FailedQuotaError (daily_limit s))
             end).
  { intros s txt H. unfold on_exception.
    replace (contains (lit "RESOURCE_EXHAUSTED") txt || contains (lit "429") txt)
      with true.
    - rewrite <- re_search_reported_limit. now destruct (re_search txt).
    - symmetry. apply orb_true_iff.
      destruct H as [H|H]; [left|right]; now apply contains_substring. }
  split; [exact A|]. split.
  { intros s txt H1 H2. split; [|reflexivity]. unfold on_exception.
    replace (contains (lit "RESOURCE_EXHAUSTED") txt || contains (lit "429") txt)
      with false; [reflexivity|].
    symmetry. apply orb_false_iff.
    split; apply not_true_is_false; intros C; apply contains_substring in C; tauto. }
  split; [|split; [exact reported_limit_some | exact reported_limit_none]].
  - intros s pre post txt H429 Htok Hpost.
    assert (R : reported_limit txt = Some 20).
    { unfold reported_limit. rewrite Htok.
      assert (T : take_digits post = []).
      { destruct post as [|c post]; [reflexivity|]. simpl.
        unfold not_digit in Hpost. now rewrite Hpost. }
      cbn. rewrite T. reflexivity. }
    rewrite (A s txt (or_intror H429)), R. now split.
Qed.

(** ** Series of executions on one day *)

Lemma run_rejected_quota (i : RunInput) (st : option SessionState) :
  click i = GenerateSummary ->
  daily_limit (before_handler i st) <= request_count (before_handler i st) ->
  run i st = mkResult (before_handler i st) RejectedQuotaExceeded [].
Proof.
  intros Hc Hq. now rewrite run_eq, Hc, generate_quota.
Qed.

Lemma run_rejected_empty (i : RunInput) (st : option SessionState) :
  click i = GenerateSummary ->
  request_count (before_handler i st) < daily_limit (before_handler i st) ->
  strip (input_text (before_handler i st)) = [] ->
  run i st = mkResult (before_handler i st) RejectedEmptyInput [].
Proof.
  intros Hc Hq He. now rewrite run_eq, Hc, generate_empty.
Qed.

Lemma before_handler_same_day (i : RunInput) (s : SessionState) :
  today i = day s -> click i = GenerateSummary ->
  request_count (before_handler i (Some s)) = request_count s /\
  daily_limit (before_handler i (Some s)) = daily_limit s /\
  day (before_handler i (Some s)) = day s /\
  history (before_handler i (Some s)) = history s.
Proof.
  intros Hd Hc.
  rewrite before_handler_request_count, before_handler_daily_limit,
    before_handler_day, before_handler_history, Hc, Hd, pystr_eqb_refl.
  now repeat split.
Qed.

Lemma run_done_state (i : RunInput) (s : SessionState) :
  today i = day s -> is_done (outcome (run i (Some s))) = true ->
  exists answer,
    request_count (state (run i (Some s))) = request_count s + 1 /\
    daily_limit (state (run i (Some s))) = daily_limit s /\
    day (state (run i (Some s))) = day s /\
    history (state (run i (Some s))) =
      history s ++ [(user, preview (input_text (before_handler i (Some s))));
                    (ai, answer)].
Proof.
  intros Hd H.
  destruct (run_done_inv i (Some s) H) as (Hc & _ & _ & _ & answer & _ & -> & _).
  destruct (before_handler_same_day i s Hd Hc) as (Hu & Hl & Hday & Hh).
  destruct (on_success_eq (before_handler i (Some s))
              (input_text (before_handler i (Some s))) answer) as (r & _ & ->).
  exists answer. cbn. rewrite Hu, Hl, Hday, Hh, <- app_assoc. now repeat split.
Qed.

Lemma runs_done (inputs : list RunInput) (s : SessionState) :
  Forall (fun i => today i = day s) inputs ->
  Forall (fun r => is_done (outcome r) = true) (results inputs (Some s)) ->
  exists s',
    runs inputs (Some s) = Some s' /\
    request_count s' = request_count s + Z.of_nat (len inputs) /\
    daily_limit s' = daily_limit s /\
    day s' = day s /\
    len (history s') = (len (history s) + 2 * len inputs)%nat.
Proof.
  revert s. induction inputs as [|i inputs IH]; intros s Hd Hr.
  - exists s. cbn. repeat split; lia.
  - cbn [runs results] in *. inversion Hd as [|? ? Hi Hd']; subst.
    inversion Hr as [|? ? Hdone Hr']; subst.
    destruct (run_done_state i s Hi Hdone) as (answer & Hu & Hl & Hday & Hh).
    destruct (IH (state (run i (Some s)))) as (s' & E & Hu' & Hl' & Hday' & Hh').
    + rewrite Hday. exact Hd'.
    + exact Hr'.
    + exists s'. split; [exact E|].
      rewrite Hu', Hl', Hday', Hh', Hu, Hl, Hday, Hh, length_app.
      cbn [List.length]. repeat split; lia.
Qed.

Lemma results_rejected (inputs : list RunInput) (s : SessionState) :
  daily_limit s <= request_count s ->
  Forall (fun i => today i = day s /\ click i = GenerateSummary) inputs ->
  Forall (fun r => outcome r = RejectedQuotaExceeded /\ calls r = [] /\
                   request_count (state r) = request_count s /\
                   daily_limit (state r) = daily_limit s /\
                   history (state r) = history s)
         (results inputs (Some s)).
Proof.
  revert s. induction inputs as [|i inputs IH]; intros s Hq Hin;
    cbn [results]; [constructor|].
  inversion Hin as [|? ? [Hd Hc] Hin']; subst.
  destruct (before_handler_same_day i s Hd Hc) as (Hu & Hl & Hday & Hh).
  rewrite run_rejected_quota by (rewrite ?Hu, ?Hl; assumption).
  cbn [state]. constructor; [now repeat split|].
  rewrite <- Hu, <- Hl, <- Hh. apply IH.
  - rewrite Hu, Hl. exact Hq.
  - rewrite Hday. exact Hin'.
Qed.

(** C1 (amended): a successful call adds exactly 1 to [request_count] and
    appends exactly two history entries, first the user entry U+1F4C4,
    a space, then [Text submitted (<wordCount> words)] with the
    whitespace-split word count of the input, then the ai entry holding
    the answer; so N successful requests made on the stored day, starting
    from [request_count = 0] with N < [daily_limit], leave
    [request_count = N] and [remaining = daily_limit - N]. *)
Theorem success_bookkeeping :
  (forall (s : SessionState) (text_input answer : pystr),
     let s' := fst (on_response s text_input (ApiOk answer)) in
     request_count s' = request_count s + 1 /\
     history s' =
       history s ++ [(user, page_facing_up :: 32%N :: spec_preview text_input);
                     (ai, answer)] /\
     daily_limit s' = daily_limit s) /\
  (forall (inputs : list RunInput) (s : SessionState),
     request_count s = 0 ->
     Z.of_nat (len inputs) < daily_limit s ->
     Forall (fun i => today i = day s) inputs ->
     Forall (fun r => is_done (outcome r) = true) (results inputs (Some s)) ->
     exists s',
       runs inputs (Some s) = Some s' /\
       request_count s' = Z.of_nat (len inputs) /\
       daily_limit s' = daily_limit s /\
       remaining s' = daily_limit s - Z.of_nat (len inputs) /\
       len (history s') = (len (history s) + 2 * len inputs)%nat).
Proof.
  split.
  - intros s text_input answer s'. subst s'. cbn [on_response].
    destruct (on_success_eq s text_input answer) as (r & _ & ->).
    cbn. rewrite <- app_assoc. now repeat split.
  - intros inputs s H0 HN Hd Hr.
    destruct (runs_done inputs s Hd Hr) as (s' & E & Hu & Hl & _ & Hh).
    exists s'. unfold remaining. rewrite Hu, Hl, H0.
    repeat split; try assumption; lia.
Qed.

(** ** Every execution, by cases *)

Lemma on_exception_cases (s : SessionState) (txt : pystr) :
  on_exception s txt = (s, FailedGenericError txt) \/
  (reported_limit txt = None /\
   on_exception s txt = (s, FailedQuotaError (daily_limit s))) \/
  (exists n, reported_limit txt = Some n /\
             (substring (lit "RESOURCE_EXHAUSTED") txt \/ substring (lit "429") txt) /\
             on_exception s txt = (set_daily_limit n s, FailedQuotaError n)).
Proof.
  unfold on_exception.
  destruct (contains (lit "RESOURCE_EXHAUSTED") txt || contains (lit "429") txt)
    eqn:Hq; [|now left].
  right. rewrite <- re_search_reported_limit.
  destruct (re_search txt) as [g|]; [right | left; now split].
  exists (int_of_digits g). split; [reflexivity|]. split; [|reflexivity].
  apply orb_true_iff in Hq.
  destruct Hq as [Hq|Hq]; [left|right]; now apply contains_substring.
Qed.

Lemma run_cases (i : RunInput) (st : option SessionState) :
  let b := before_handler i st in
  (click i <> GenerateSummary /\ run i st = mkResult b NoRequest []) \/
  (click i = GenerateSummary /\ daily_limit b <= request_count b /\
   run i st = mkResult b RejectedQuotaExceeded []) \/
  (click i = GenerateSummary /\ request_count b < daily_limit b /\
   strip (input_text b) = [] /\
   run i st = mkResult b RejectedEmptyInput []) \/
  (click i = GenerateSummary /\ request_count b < daily_limit b /\
   strip (input_text b) <> [] /\
   exists answer r,
     api i (request_of i st) = ApiOk answer /\
     reduction (len (split (input_text b))) (len (split answer)) = Some r /\
     run i st =
     mkResult (history_append ai answer
                 (history_append user (preview (input_text b))
                    (set_request_count (request_count b + 1) b)))
              (Done answer (len (split (input_text b))) (len (split answer)) r)
              [request_of i st]) \/
  (click i = GenerateSummary /\ request_count b < daily_limit b /\
   strip (input_text b) <> [] /\
   exists txt,
     api i (request_of i st) = ApiErr txt /\
     run i st = mkResult (fst (on_exception b txt)) (snd (on_exception b txt))
                         [request_of i st]).
Proof.
  intros b. rewrite run_eq. fold b.
  destruct (click i) eqn:Hc; try (left; split; [discriminate | reflexivity]).
  right.
  destruct (Z_lt_le_dec (request_count b) (daily_limit b)) as [Hq|Hq];
    [|left; rewrite generate_quota by exact Hq; now repeat split].
  right.
  destruct (strip (input_text b)) as [|c p] eqn:Hs;
    [left; rewrite generate_empty by assumption; now repeat split|].
  right.
  assert (Hne : strip (input_text b) <> []) by congruence.
  rewrite generate_call by assumption. rewrite <- Hs.
  change (api_request (options i) (spec_temperature (summary_length (options i)))
            (input_text b)) with (request_of i st).
  unfold on_response. destruct (api i (request_of i st)) as [answer|txt] eqn:Ha.
  - left. destruct (on_success_eq b (input_text b) answer) as (r & Hr & ->).
    repeat split; try assumption. exists answer, r. now repeat split.
  - right. repeat split; try assumption. exists txt. split; [reflexivity|].
    now destruct (on_exception b txt).
Qed.

Ltac by_run_cases i st :=
  let Hc := fresh "Hc" in let Hq := fresh "Hq" in let Hs := fresh "Hs" in
  let Ha := fresh "Ha" in let Hr := fresh "Hr" in let E := fresh "E" in
  let answer := fresh "answer" in let r := fresh "r" in let txt := fresh "txt" in
  destruct (run_cases i st)
    as [(Hc & E)
       | [(Hc & Hq & E)
         | [(Hc & Hq & Hs & E)
           | [(Hc & Hq & Hs & answer & r & Ha & Hr & E)
             | (Hc & Hq & Hs & txt & Ha & E)]]]].

Lemma on_exception_request_count (s : SessionState) (txt : pystr) :
  request_count (fst (on_exception s txt)) = request_count s.
Proof. now rewrite on_exception_state. Qed.

Lemma on_exception_history (s : SessionState) (txt : pystr) :
  history (fst (on_exception s txt)) = history s.
Proof. now rewrite on_exception_state. Qed.

Lemma on_exception_input_text (s : SessionState) (txt : pystr) :
  input_text (fst (on_exception s txt)) = input_text s.
Proof. now rewrite on_exception_state. Qed.

Lemma on_exception_outcome (s : SessionState) (txt : pystr) :
  snd (on_exception s txt) = FailedGenericError txt \/
  snd (on_exception s txt) = FailedQuotaError (daily_limit (fst (on_exception s txt))).
Proof.
  unfold on_exception. destruct (_ || _); [right | left]; reflexivity.
Qed.

(** ** What an execution can change *)

(** X2: the limit only ever changes through a failed call whose message names
    a quota error and reports a value: then the new limit is that value,
    and it is the limit the info line shows. *)
Theorem daily_limit_changes_only_on_quota_error (i : RunInput) (s : SessionState) :
  daily_limit (state (run i (Some s))) <> daily_limit s ->
  exists txt n,
    api i (request_of i (Some s)) = ApiErr txt /\
    (substring (lit "RESOURCE_EXHAUSTED") txt \/ substring (lit "429") txt) /\
    reported_limit txt = Some n /\
    daily_limit (state (run i (Some s))) = n /\
    outcome (run i (Some s)) = FailedQuotaError n.
Proof.
  pose proof (before_handler_daily_limit i s) as Hl.
  by_run_cases i (Some s); rewrite E; cbn [state outcome]; intros H;
    try (exfalso; apply H; cbn; exact Hl).
  destruct (on_exception_cases (before_handler i (Some s)) txt)
    as [X | [[_ X] | (n & Hn & Hsub & X)]]; rewrite X in *; cbn in H |- *;
    try (exfalso; apply H; exact Hl).
  exists txt, n. now repeat split.
Qed.

(** X6: a summary is only ever reported for a text with at least one word, so
    the zero branch of the reduction metric is never taken there: the
    metric shown is a float, computed from the word counts of the submitted
    text and of the answer. *)
Theorem done_has_words (i : RunInput) (st : option SessionState)
    (answer : pystr) (original summ : nat) (red : pynum) :
  outcome (run i st) = Done answer original summ red ->
  (1 <= original)%nat /\
  original = len (split (input_text (state (run i st)))) /\
  summ = len (split answer) /\
  api i (request_of i st) = ApiOk answer /\
  exists q, red = PyFloat q.
Proof.
  by_run_cases i st; rewrite E; cbn [state outcome]; try discriminate.
  - intros H. injection H as <- <- <- <-.
    assert (Hw : split (input_text (before_handler i st)) <> [])
      by (intros X; apply Hs; now apply split_nil).
    cbn [input_text history_append set_history set_request_count].
    destruct (split (input_text (before_handler i st))) as [|w ws] eqn:Hsp;
      [congruence|].
    repeat split; try assumption; [cbn; lia|].
    cbn [List.length] in Hr. unfold reduction, truthy in Hr.
    replace (Z.of_nat (S (len ws)) =? 0) with false in Hr
      by (symmetry; apply Z.eqb_neq; lia).
    cbn [negb] in Hr. destruct (truediv _ _); [|discriminate].
    injection Hr as <-. eauto.
  - destruct (on_exception_outcome (before_handler i st) txt) as [-> | ->];
      discriminate.
Qed.

(** ** Invariants over a session *)

Lemma run_keeps_quota_invariant (i : RunInput) (st : option SessionState) :
  match st with
  | Some s => 0 <= daily_limit s /\ request_count s <= daily_limit s
  | None => True
  end ->
  is_quota_error (outcome (run i st)) = false ->
  daily_limit (state (run i st))
  = match st with Some s => daily_limit s | None => 50 end /\
  0 <= daily_limit (state (run i st)) /\
  request_count (state (run i st)) <= daily_limit (state (run i st)).
Proof.
  intros Hinv.
  assert (B : daily_limit (before_handler i st)
              = match st with Some s => daily_limit s | None => 50 end /\
              0 <= daily_limit (before_handler i st) /\
              request_count (before_handler i st) <= daily_limit (before_handler i st)).
  { destruct st as [s|].
    - destruct Hinv as [H0 Hle].
      rewrite before_handler_request_count, before_handler_daily_limit.
      destruct (pystr_eqb _ _); repeat split; lia.
    - unfold_before_handler. cbn [day]. rewrite pystr_eqb_refl.
      destruct (text_area i), (click i), (uploaded i); cbn; repeat split; lia. }
  destruct B as (Bl & B0 & Ble).
  by_run_cases i st; rewrite E; cbn [state outcome]; intros Hq';
    try (repeat split; assumption).
  - cbn. repeat split; try assumption; lia.
  - destruct (on_exception_cases (before_handler i st) txt)
      as [X | [[_ X] | (n & _ & _ & X)]]; rewrite X in *; cbn in *;
      try discriminate; repeat split; assumption.
Qed.

(** X7: as long as the API reports no quota error, a session started afresh
    keeps the limit of 50 and its counter never goes above it, whatever
    the user does and however the days change. *)
Theorem never_over_limit_without_quota_errors
    (inputs : list RunInput) (s' : SessionState) :
  Forall (fun r => is_quota_error (outcome r) = false) (results inputs None) ->
  runs inputs None = Some s' ->
  daily_limit s' = 50 /\ 0 <= request_count s' <= 50.
Proof.
  assert (G : forall inputs s,
             daily_limit s = 50 -> 0 <= request_count s <= 50 ->
             Forall (fun r => is_quota_error (outcome r) = false)
                    (results inputs (Some s)) ->
             runs inputs (Some s) = Some s' ->
             daily_limit s' = 50 /\ 0 <= request_count s' <= 50).
  { clear inputs. induction inputs as [|i inputs IH]; intros s Hl Hu Hr Hf.
    - cbn in Hf. injection Hf as <-. now split.
    - cbn [results runs] in *. inversion Hr as [|? ? Hq Hr']; subst.
      destruct (run_keeps_quota_invariant i (Some s)) as (Hl' & _ & Hle');
        [lia | exact Hq |].
      destruct (run_nonneg i (Some s)) as [Hu' _]; [lia|].
      apply (IH (state (run i (Some s)))); try assumption; lia. }
  destruct inputs as [|i inputs]; intros Hr Hf; [discriminate|].
  cbn [results runs] in *. inversion Hr as [|? ? Hq Hr']; subst.
  destruct (run_keeps_quota_invariant i None I Hq) as (Hl' & _ & Hle').
  destruct (run_nonneg i None I) as [Hu' _].
  apply (G inputs (state (run i None))); try assumption; lia.
Qed.



Lemma widgets_quota (i : RunInput) (s : SessionState) :
  request_count (widgets i s) = request_count s /\
  daily_limit (widgets i s) = daily_limit s.
Proof.
  unfold widgets. destruct (click i), (uploaded i); now split.
Qed.

(** ** Words *)

Lemma split_from_word (cur w : pystr) :
  Forall (fun c => isspace c = false) w ->
  split_from cur w = match cur, w with
                     | [], [] => []
                     | _, _ => [rev cur ++ w]
                     end.
Proof.
  revert cur. induction w as [|c w IH]; intros cur H.
  - destruct cur; [reflexivity|]. cbn [split_from]. now rewrite app_nil_r.
  - inversion H as [|? ? Hc Hw]; subst. cbn [split_from]. rewrite Hc, (IH _ Hw).
    cbn [rev]. rewrite <- app_assoc. now destruct cur.
Qed.

Lemma split_from_app_space (cur a b : pystr) (c : codepoint) :
  isspace c = true ->
  split_from cur (a ++ c :: b) = split_from cur a ++ split_from [] b.
Proof.
  intros Hc. revert cur. induction a as [|x a IH]; intros cur.
  - cbn [app split_from]. rewrite Hc. now destruct cur.
  - cbn [app split_from]. destruct (isspace x); [|apply IH].
    destruct cur; [apply IH|]. cbn [app]. now rewrite IH.
Qed.

Lemma split_from_concat (cur s : pystr) :
  List.concat (split_from cur s) = rev cur ++ filter (fun c => negb (isspace c)) s.
Proof.
  revert cur. induction s as [|c s IH]; intros cur.
  - destruct cur; [reflexivity|]. cbn [split_from List.concat filter].
    now rewrite !app_nil_r.
  - cbn [split_from filter]. destruct (isspace c); cbn [negb].
    + destruct cur; [apply IH|]. cbn [List.concat]. now rewrite IH.
    + rewrite IH. cbn [rev]. now rewrite <- app_assoc.
Qed.

(** X11: [str.split()] is determined by three equations: the empty text has no
    word, a text without whitespace is one word, and a whitespace
    character separates what comes before it from what comes after.  The
    words, put together again, are the text without its whitespace. *)
Theorem split_characterised :
  split [] = [] /\
  (forall w, w <> [] -> Forall (fun c => isspace c = false) w -> split w = [w]) /\
  (forall a c b, isspace c = true -> split (a ++ c :: b) = split a ++ split b) /\
  (forall s, List.concat (split s) = filter (fun c => negb (isspace c)) s).
Proof.
  split; [reflexivity|]. split; [|split].
  - intros w Hne Hw. unfold split. rewrite (split_from_word [] w Hw).
    now destruct w.
  - intros a c b Hc. apply (split_from_app_space [] a b c Hc).
  - intros s. apply (split_from_concat [] s).
Qed.

Lemma split_from_len_cur (cur cur' s : pystr) :
  cur <> [] -> cur' <> [] ->
  len (split_from cur s) = len (split_from cur' s).
Proof.
  revert cur cur'. induction s as [|c s IH]; intros cur cur' H H'.
  - now destruct cur, cur'.
  - cbn [split_from]. destruct (isspace c).
    + now destruct cur, cur'.
    + apply IH; discriminate.
Qed.

Lemma split_from_len_nonempty (cur s : pystr) :
  cur <> [] ->
  (len (split_from cur s) + (if starts_word s then 1 else 0)
   = len (split s) + 1)%nat.
Proof.
  intros H. destruct s as [|c s].
  - destruct cur; [congruence | reflexivity].
  - unfold split. cbn [split_from starts_word]. destruct (isspace c); cbn [negb].
    + destruct cur; [congruence|]. cbn [List.length]. lia.
    + rewrite (split_from_len_cur (c :: cur) [c] s); [lia | discriminate..].
Qed.

Lemma split_from_len_app (cur a b : pystr) :
  (len (split_from cur (a ++ b))
   + (if in_word (nonempty cur) a && starts_word b then 1 else 0)
   = len (split_from cur a) + len (split b))%nat.
Proof.
  revert cur. induction a as [|x a IH]; intros cur.
  - cbn [app in_word]. destruct cur as [|c cur]; cbn [nonempty andb].
    + unfold split. cbn. lia.
    + assert (H := split_from_len_nonempty (c :: cur) b ltac:(discriminate)).
      cbn [split_from List.length].
      destruct (starts_word b); lia.
  - cbn [app in_word split_from]. destruct (isspace x); cbn [negb].
    + destruct cur; [apply (IH [])|]. cbn [List.length].
      pose proof (IH []) as H. cbn [nonempty] in H. lia.
    + apply (IH (x :: cur)).
Qed.

Lemma in_word_last (b : bool) (a : pystr) (c : codepoint) :
  in_word b (a ++ [c]) = negb (isspace c).
Proof.
  revert b. induction a as [|x a IH]; intros b; [reflexivity | apply IH].
Qed.

(** X12: joining two texts with nothing in between, as the pages of a PDF are
    joined, loses one word exactly when the first text ends inside a word
    and the second begins with one; otherwise the word counts add up. *)
Theorem word_count_of_joined_texts (a b : pystr) :
  (len (split (a ++ b)) + (if in_word false a && starts_word b then 1 else 0)
   = len (split a) + len (split b))%nat /\
  in_word false [] = false /\
  (forall a' c, in_word false (a' ++ [c]) = negb (isspace c)).
Proof.
  split; [apply (split_from_len_app [] a b)|].
  split; [reflexivity|]. intros a' c. apply in_word_last.
Qed.

Lemma lstrip_split_off (s : pystr) :
  exists l, s = l ++ lstrip s /\ forallb isspace l = true /\
            starts_word (lstrip s) = nonempty (lstrip s).
Proof.
  induction s as [|c s (l & E & Hl & Hh)].
  - exists []. now repeat split.
  - cbn [lstrip]. destruct (isspace c) eqn:Hc.
    + exists (c :: l). repeat split; [cbn; now f_equal | cbn; now rewrite Hc | exact Hh].
    + exists []. repeat split. cbn. now rewrite Hc.
Qed.

Lemma split_from_leading_space (l s : pystr) :
  forallb isspace l = true -> split_from [] (l ++ s) = split_from [] s.
Proof.
  induction l as [|c l IH]; intros H; [reflexivity|].
  cbn in H. apply andb_true_iff in H. destruct H as [Hc Hl].
  cbn [app split_from]. rewrite Hc. now apply IH.
Qed.

Lemma split_from_trailing_space (cur s r : pystr) :
  forallb isspace r = true -> split_from cur (s ++ r) = split_from cur s.
Proof.
  intros Hr. revert cur. induction s as [|c s IH]; intros cur.
  - cbn [app]. revert cur. induction r as [|x r IHr]; intros cur; [reflexivity|].
    cbn in Hr. apply andb_true_iff in Hr. destruct Hr as [Hx Hr].
    cbn [split_from]. rewrite Hx. destruct cur.
    + now apply IHr.
    + rewrite (IHr Hr []). reflexivity.
  - cbn [app split_from]. destruct (isspace c); [|apply IH].
    destruct cur; now rewrite IH.
Qed.

(** X13: [str.strip()] removes a run of whitespace at each end and nothing
    else: what is left neither begins nor ends with whitespace, and has
    the same words as the whole text. *)
Theorem strip_characterised (s : pystr) :
  (exists l r, s = l ++ strip s ++ r /\
               forallb isspace l = true /\ forallb isspace r = true) /\
  starts_word (strip s) = nonempty (strip s) /\
  starts_word (rev (strip s)) = nonempty (strip s) /\
  split (strip s) = split s.
Proof.
  destruct (lstrip_split_off s) as (l & El & Hl & Hh).
  destruct (lstrip_split_off (rev (lstrip s))) as (l' & El' & Hl' & Hh').
  assert (Et : lstrip s = strip s ++ rev l').
  { unfold strip. rewrite <- rev_app_distr, <- El'. now rewrite rev_involutive. }
  assert (D : exists l r, s = l ++ strip s ++ r /\
                forallb isspace l = true /\ forallb isspace r = true).
  { exists l, (rev l'). rewrite <- Et. repeat split; try assumption.
    now rewrite forallb_rev. }
  split; [exact D|]. split; [|split].
  - rewrite Et in Hh. destruct (strip s) as [|c t] eqn:Es; [reflexivity|].
    exact Hh.
  - unfold strip. rewrite rev_involutive.
    destruct (lstrip (rev (lstrip s))) as [|c t] eqn:Eu; [reflexivity|].
    rewrite Hh'. cbn [rev nonempty]. now destruct (rev t).
  - destruct D as (l0 & r0 & E0 & Hl0 & Hr0). unfold split at 2. rewrite E0 at 2.
    rewrite split_from_leading_space by exact Hl0.
    now rewrite split_from_trailing_space by exact Hr0.
Qed.

(** ** Numbers in messages *)

Lemma str_of_nat_digits (d : Decimal.uint) :
  Forall (fun c => is_digit c = true) (lit (NilEmpty.string_of_uint d)).
Proof.
  induction d; cbn; constructor; (reflexivity || assumption).
Qed.

Ltac eval_digit_value :=
  match goal with
  | |- context [digit_value ?c] =>
      let v := eval vm_compute in (digit_value c) in
      change (digit_value c) with v
  end.

Lemma int_of_digits_acc (d : Decimal.uint) (acc : nat) :
  fold_left (fun a c => 10 * a + digit_value c)
            (lit (NilEmpty.string_of_uint d)) (Z.of_nat acc)
  = Z.of_nat (Nat.of_uint_acc d acc).
Proof.
  revert acc. induction d; intros acc; cbn [NilEmpty.string_of_uint Nat.of_uint_acc];
    [reflexivity|..];
    unfold lit; cbn [list_ascii_of_string map fold_left];
    fold (lit (NilEmpty.string_of_uint d));
    rewrite <- IHd; f_equal; rewrite Nat.tail_mul_spec;
    eval_digit_value; lia.
Qed.

Lemma int_of_digits_pos_acc (d : Decimal.uint) (acc : positive) :
  fold_left (fun a c => 10 * a + digit_value c)
            (lit (NilEmpty.string_of_uint d)) (Z.pos acc)
  = Z.pos (Pos.of_uint_acc d acc).
Proof.
  revert acc. induction d; intros acc; cbn [NilEmpty.string_of_uint Pos.of_uint_acc];
    [reflexivity|..];
    unfold lit; cbn [list_ascii_of_string map fold_left];
    fold (lit (NilEmpty.string_of_uint d));
    rewrite <- IHd; f_equal; eval_digit_value; lia.
Qed.

Lemma int_of_digits_pos (d : Decimal.uint) :
  fold_left (fun a c => 10 * a + digit_value c)
            (lit (NilEmpty.string_of_uint d)) 0
  = Z.of_N (Pos.of_uint d).
Proof.
  induction d; cbn [NilEmpty.string_of_uint Pos.of_uint];
    [reflexivity|..];
    unfold lit; cbn [list_ascii_of_string map fold_left];
    fold (lit (NilEmpty.string_of_uint d)); eval_digit_value;
    [exact IHd | cbn [Z.of_N]; rewrite <- int_of_digits_pos_acc; reflexivity..].
Qed.

Lemma to_uint_of_pos (p : positive) : Nat.to_uint (Pos.to_nat p) = Pos.to_uint p.
Proof.
  assert (V : Nat.of_uint (Pos.to_uint p) = Pos.to_nat p).
  { apply Nat2Z.inj. unfold Nat.of_uint.
    rewrite <- (int_of_digits_acc (Pos.to_uint p) 0). cbn [Z.of_nat].
    rewrite int_of_digits_pos, DecimalPos.Unsigned.of_to. cbn [Z.of_N].
    now rewrite positive_nat_Z. }
  rewrite <- V, DecimalNat.Unsigned.to_of.
  rewrite <- (DecimalPos.Unsigned.to_of (Pos.to_uint p)).
  now rewrite DecimalPos.Unsigned.of_to.
Qed.

(** An [int] that is not negative is formatted as the natural number it
    is. *)
Lemma str_of_Z_of_nat (n : nat) : str_of_Z (Z.of_nat n) = str_of_nat n.
Proof.
  unfold str_of_Z, str_of_nat. f_equal. destruct n as [|n]; [reflexivity|].
  cbn [Z.of_nat Z.to_int NilEmpty.string_of_int]. f_equal.
  now rewrite <- to_uint_of_pos, SuccNat2Pos.id_succ.
Qed.

(** Formatting a number and reading it back gives the number. *)
Lemma int_of_str_of_nat (n : nat) : int_of_digits (str_of_nat n) = Z.of_nat n.
Proof.
  unfold int_of_digits, str_of_nat.
  pose proof (int_of_digits_acc (Nat.to_uint n) 0) as H. cbn [Z.of_nat] in H.
  rewrite H. fold (Nat.of_uint (Nat.to_uint n)).
  now rewrite DecimalNat.Unsigned.of_to.
Qed.

Lemma str_of_nat_not_nil (n : nat) : str_of_nat n <> [].
Proof.
  unfold str_of_nat. intros H.
  assert (E : Nat.to_uint n = Decimal.Nil)
    by (destruct (Nat.to_uint n); [reflexivity | discriminate..]).
  pose proof (DecimalNat.Unsigned.of_to n) as R. rewrite E in R. cbn in R. subst n.
  discriminate E.
Qed.

Lemma take_digits_app (g post : pystr) :
  Forall (fun c => is_digit c = true) g ->
  starts_digit_free post ->
  take_digits (g ++ post) = g.
Proof.
  intros Hg Hp. induction Hg as [|c g Hc _ IH]; cbn [app].
  - destruct post as [|c post]; [reflexivity|]. cbn. now rewrite Hp.
  - cbn [take_digits]. now rewrite Hc, IH.
Qed.

Lemma first_integer_app (mid g post : pystr) :
  Forall not_digit mid -> g <> [] ->
  Forall (fun c => is_digit c = true) g ->
  starts_digit_free post ->
  first_integer (mid ++ g ++ post) = Some g.
Proof.
  intros Hm Hne Hg Hp. induction Hm as [|c mid Hc _ IH]; cbn [app].
  - destruct g as [|c g]; [congruence|]. cbn [app first_integer].
    inversion Hg as [|? ? Hc Hg']; subst. rewrite Hc. f_equal.
    now apply (take_digits_app (c :: g) post).
  - cbn [first_integer]. unfold not_digit in Hc. now rewrite Hc.
Qed.

Lemma skipn_app_exact {A : Type} (l r : list A) : skipn (len l) (l ++ r) = r.
Proof. induction l; [reflexivity | assumption]. Qed.

Lemma after_token_leftmost (pre r : pystr) :
  (forall pre' r', pre ++ quotaValue ++ r = pre' ++ quotaValue ++ r' ->
                   (len pre <= len pre')%nat) ->
  after_token (pre ++ quotaValue ++ r) = Some r.
Proof.
  induction pre as [|a pre IH]; intros Hmin; rewrite after_token_eq.
  - cbn [app]. now rewrite startswith_app, skipn_app_exact.
  - destruct (startswith quotaValue ((a :: pre) ++ quotaValue ++ r)) eqn:Hst.
    + apply startswith_inv in Hst.
      specialize (Hmin [] _ Hst). cbn in Hmin. lia.
    + cbn [app]. apply IH. intros pre' r' E.
      specialize (Hmin (a :: pre') r'). cbn [app List.length] in Hmin.
      rewrite E in Hmin. specialize (Hmin eq_refl). lia.
Qed.

(** X14: the converse of the reading of the regular expression: a message
    whose leftmost [quotaValue] token is followed by characters that are
    not digits and then by a run of digits that ends there reports the
    value of that run. *)
Theorem reported_limit_of_leftmost_token (pre mid g post : pystr) :
  (forall pre' r',
     pre ++ quotaValue ++ mid ++ g ++ post = pre' ++ quotaValue ++ r' ->
     (len pre <= len pre')%nat) ->
  Forall not_digit mid -> g <> [] ->
  Forall (fun c => is_digit c = true) g ->
  starts_digit_free post ->
  re_search (pre ++ quotaValue ++ mid ++ g ++ post) = Some g /\
  reported_limit (pre ++ quotaValue ++ mid ++ g ++ post) = Some (int_of_digits g).
Proof.
  intros Hmin Hm Hne Hg Hp.
  assert (R : re_search (pre ++ quotaValue ++ mid ++ g ++ post) = Some g).
  { rewrite re_search_first_integer, (after_token_leftmost pre _ Hmin).
    now apply first_integer_app. }
  split; [exact R|]. now rewrite <- re_search_reported_limit, R.
Qed.

(** ** The prompt identifies the request *)

(** X16: two prompts are equal only if they were built for the same length,
    language and format and from the same text; with the temperature and
    the token cap, the request sent to the API determines the options and
    the text it was built from. *)
Theorem prompt_injective (o o' : Options) (t t' : pystr) :
  (prompt o t = prompt o' t' ->
   summary_length o = summary_length o' /\
   language o = language o' /\
   format_type o = format_type o' /\
   t = t') /\
  (forall temp temp',
     api_request o temp t = api_request o' temp' t' ->
     o = o' /\ temp = temp' /\ t = t').
Proof.
  assert (A : prompt o t = prompt o' t' ->
              summary_length o = summary_length o' /\
              language o = language o' /\
              format_type o = format_type o' /\
              t = t').
  { destruct o as [l m la f], o' as [l' m' la' f'].
    cbn [summary_length language format_type].
    destruct l, l'; unfold prompt; cbn; intros H; try discriminate H;
      destruct la, la'; cbn in H; try discriminate H;
      destruct f, f'; cbn in H; try discriminate H;
      (repeat split; injection H as H; now apply app_inv_tail in H). }
  split; [exact A|].
  intros temp temp' H.
  pose proof (f_equal contents H) as Hp.
  pose proof (f_equal req_temperature H) as Ht.
  pose proof (f_equal max_output_tokens H) as Hm.
  unfold api_request in Hp, Ht, Hm.
  cbn [contents req_temperature max_output_tokens] in Hp, Ht, Hm.
  destruct (A Hp) as (Hl & Hla & Hf & Htxt). clear A H Hp.
  destruct o, o'. cbn [summary_length language format_type max_tokens] in *.
  subst. now repeat split.
Qed.

(** ** The conversation *)

Lemma render_entry_injective (e1 e2 : HistoryEntry) :
  render_entry e1 = render_entry e2 -> e1 = e2.
Proof.
  destruct e1 as [r1 m1], e2 as [r2 m2]. unfold render_entry. cbn [fst snd].
  destruct r1, r2; cbn; intros H; try discriminate H;
    injection H as H; now subst.
Qed.

(** X17: what the conversation shows.  A rejected request shows none, because
    the script stops before it gets there.  A summary shows the history
    the handler found followed by the two new lines, the user's preview
    and the answer.  And the lines determine the history: entries that
    differ are shown differently. *)
Theorem conversation_shows_history :
  (forall (i : RunInput) (st : option SessionState),
     click i = GenerateSummary ->
     daily_limit (before_handler i st) <= request_count (before_handler i st) \/
     strip (input_text (before_handler i st)) = [] ->
     conversation (run i st) = None) /\
  (forall (i : RunInput) (st : option SessionState) answer original summ red,
     outcome (run i st) = Done answer original summ red ->
     conversation (run i st) =
     Some (map render_entry (history (before_handler i st))
           ++ [green_circle :: lit " **You:** "
                 ++ preview (input_text (before_handler i st));
               robot_face :: lit " **AI:** " ++ answer])) /\
  (forall h1 h2 : list HistoryEntry,
     map render_entry h1 = map render_entry h2 -> h1 = h2).
Proof.
  split; [|split].
  - intros i st Hc' H. unfold conversation.
    by_run_cases i st; rewrite E; cbn [outcome stops]; try reflexivity;
      try contradiction; destruct H as [H|H]; try lia; contradiction.
  - intros i st answer original summ red H. unfold conversation. rewrite H.
    cbn [stops]. f_equal. revert H.
    by_run_cases i st; rewrite E; cbn [outcome state]; try discriminate.
    + intros H. injection H as <- _ _ _.
      cbn [history history_append set_history set_request_count].
      rewrite <- app_assoc, map_app. reflexivity.
    + destruct (on_exception_outcome (before_handler i st) txt) as [-> | ->];
        discriminate.
  - induction h1 as [|e1 h1 IH]; intros [|e2 h2] H; try discriminate H;
      [reflexivity|].
    cbn [map] in H. injection H as He Ht.
    apply render_entry_injective in He. subst e2. f_equal. now apply IH.
Qed.

(** X19: a new session starts on today's date with counter 0, limit 50, an
    empty history and an empty text; its sidebar shows 0 used, 50
    remaining and progress 0.0; and pressing Generate before any text is
    entered gives the empty-text warning without touching the API. *)
Theorem fresh_session_defaults (i : RunInput) :
  (text_area i = None ->
   startup i None = mkSession (today i) 0 50 [] []) /\
  sidebar (startup i None) = Some (mkSidebar 0 50 (PyFloat 0%float)) /\
  (text_area i = None -> uploaded i = NoFile -> click i = GenerateSummary ->
   run i None = mkResult (mkSession (today i) 0 50 [] []) RejectedEmptyInput []).
Proof.
  assert (S0 : daily_reset (today i) (init_session (today i) None)
               = mkSession (today i) 0 50 [] []).
  { unfold daily_reset, init_session. cbn [day]. now rewrite pystr_eqb_refl. }
  split; [|split].
  - intros Ht. unfold startup. now rewrite S0, Ht.
  - unfold startup. rewrite S0. now destruct (text_area i).
  - intros Ht Hu Hc'.
    assert (B : before_handler i None = mkSession (today i) 0 50 [] []).
    { unfold before_handler, widgets, startup. now rewrite S0, Ht, Hc', Hu. }
    rewrite run_rejected_empty; rewrite ?B; try assumption; try reflexivity.
Qed.

(** ** The temperature table and the sample text *)

(** X24: [temp_map] has the five labels of the slider as its keys and no other:
    a lookup succeeds exactly for a label, spelled as the slider spells it,
    and gives that length's temperature; the lower-case form that goes into
    the prompt is not a key. *)
Theorem temp_map_keys (k : pystr) (v : float) :
  (getitem temp_map k = Some v <->
   exists l, k = length_label l /\ v = spec_temperature l) /\
  (forall l, getitem temp_map (length_descriptor l) = None).
Proof.
  split; [split|].
  - unfold temp_map. cbn [getitem].
    repeat match goal with
           | |- context [pystr_eqb ?a k] =>
               let E := fresh "E" in
               destruct (pystr_eqb a k) eqn:E;
               [apply pystr_eqb_eq in E; intros [= <-]|]
           end; try discriminate.
    + now exists very_short.
    + now exists short.
    + now exists balanced.
    + now exists detailed.
    + now exists very_detailed.
  - intros (l & -> & ->). destruct l; reflexivity.
  - intros l. destruct l; reflexivity.
Qed.

(** X25: the sample scenario: Load sample puts the built-in text in the box
    without sending anything; a Generate request that follows on the same
    day, with quota left and an API that answers, sends the prompt built
    from the sample, records the preview for 35 words and the answer, and
    adds 1 to the counter. *)
Theorem sample_then_generate
    (s : SessionState) (i1 i2 : RunInput) (answer : pystr) :
  click i1 = LoadSample -> uploaded i1 = NoFile ->
  click i2 = GenerateSummary -> text_area i2 = None -> uploaded i2 = NoFile ->
  today i2 = today i1 ->
  request_count (state (run i1 (Some s))) < daily_limit s ->
  api i2 (api_request (options i2)
            (spec_temperature (summary_length (options i2))) sample_text)
  = ApiOk answer ->
  input_text (state (run i1 (Some s))) = sample_text /\
  calls (run i1 (Some s)) = [] /\
  calls (run i2 (Some (state (run i1 (Some s)))))
  = [api_request (options i2)
       (spec_temperature (summary_length (options i2))) sample_text] /\
  history (state (run i2 (Some (state (run i1 (Some s))))))
  = history s ++ [(user, page_facing_up :: lit " Text submitted (35 words)");
                  (ai, answer)] /\
  request_count (state (run i2 (Some (state (run i1 (Some s))))))
  = request_count (state (run i1 (Some s))) + 1.
Proof.
  intros Hc1 Hu1 Hc2 Ht2 Hu2 Hd Hq Hapi.
  assert (R1 : run i1 (Some s) = mkResult (before_handler i1 (Some s)) NoRequest [])
    by (rewrite run_eq, Hc1; reflexivity).
  assert (T1 : input_text (before_handler i1 (Some s)) = sample_text)
    by (unfold before_handler, widgets; now rewrite Hc1, Hu1).
  assert (H1 : history (before_handler i1 (Some s)) = history s)
    by (now rewrite before_handler_history, Hc1).
  rewrite R1 in *. cbn [state calls] in *.
  set (s1 := before_handler i1 (Some s)) in *.
  assert (D1 : day s1 = today i2)
    by (unfold s1; now rewrite before_handler_day).
  destruct (before_handler_same_day i2 s1 (eq_sym D1) Hc2) as (Bu & Bl & _ & Bh).
  assert (T2 : input_text (before_handler i2 (Some s1)) = sample_text).
  { unfold before_handler, widgets, startup, daily_reset, init_session.
    rewrite D1, pystr_eqb_refl, Ht2, Hc2, Hu2. exact T1. }
  assert (L1 : daily_limit s1 = daily_limit s)
    by (unfold s1; apply before_handler_daily_limit).
  repeat split; try assumption.
  - by_run_cases i2 (Some s1); rewrite E; cbn [calls];
      unfold request_of; rewrite ?T2; try reflexivity; try congruence.
    + lia.
    + rewrite T2 in Hs. discriminate Hs.
  - by_run_cases i2 (Some s1); try congruence; try lia.
    + rewrite T2 in Hs. discriminate Hs.
    + rewrite E. cbn [state history history_append set_history set_request_count].
      unfold request_of in Ha. rewrite T2 in Ha. rewrite Hapi in Ha.
      injection Ha as <-. rewrite Bh, H1, T2, <- app_assoc. reflexivity.
    + unfold request_of in Ha. rewrite T2, Hapi in Ha. discriminate.
  - by_run_cases i2 (Some s1); try congruence; try lia.
    + rewrite T2 in Hs. discriminate Hs.
    + rewrite E. cbn. now rewrite Bu.
    + unfold request_of in Ha. rewrite T2, Hapi in Ha. discriminate.
Qed.

(** ** The script and its two stops *)

Lemma usage_display_quota (a b : SessionState) :
  request_count a = request_count b -> daily_limit a = daily_limit b ->
  usage_display a = usage_display b.
Proof. intros Hu Hl. unfold usage_display. now rewrite Hu, Hl. Qed.

Lemma startup_quota (i : RunInput) (s : SessionState) :
  today i = day s ->
  request_count (startup i (Some s)) = request_count s /\
  daily_limit (startup i (Some s)) = daily_limit s.
Proof.
  intros Hd. unfold startup, daily_reset, init_session.
  rewrite Hd, pystr_eqb_refl. now destruct (text_area i).
Qed.

Lemma script_completed (i : RunInput) (st : option SessionState) :
  usage_display (startup i st) <> None -> text_file_uploaded i = false ->
  script i st = Completed (run i st).
Proof.
  intros Hu Hf. unfold script, text_file_uploaded in *.
  destruct (usage_display (startup i st)); [|congruence].
  now destruct (uploaded i).
Qed.

Lemma script_completed_inv (i : RunInput) (st : option SessionState) (r : RunResult) :
  script i st = Completed r ->
  r = run i st /\ usage_display (startup i st) <> None /\
  text_file_uploaded i = false.
Proof.
  unfold script, text_file_uploaded.
  destruct (usage_display (startup i st)); [|discriminate].
  destruct (uploaded i); intros H; try discriminate H;
    injection H as <-; repeat split; discriminate.
Qed.

Lemma executions_rejected (inputs : list RunInput) (s : SessionState) :
  usage_display s <> None ->
  daily_limit s <= request_count s ->
  Forall (fun i => today i = day s /\ click i = GenerateSummary /\
                   text_file_uploaded i = false) inputs ->
  Forall (fun e => exists r,
            e = Completed r /\
            outcome r = RejectedQuotaExceeded /\ calls r = [] /\
            request_count (state r) = request_count s /\
            daily_limit (state r) = daily_limit s /\
            history (state r) = history s)
         (executions inputs (Some s)).
Proof.
  revert s. induction inputs as [|i inputs IH]; intros s Hd Hq Hin;
    cbn [executions]; [constructor|].
  inversion Hin as [|? ? (Hday & Hc & Hf) Hin']; subst.
  destruct (before_handler_same_day i s Hday Hc) as (Bu & Bl & Bd & Bh).
  destruct (startup_quota i s Hday) as [Su Sl].
  assert (E : script i (Some s)
              = Completed (mkResult (before_handler i (Some s))
                                    RejectedQuotaExceeded [])).
  { rewrite script_completed; try assumption.
    - now rewrite run_rejected_quota by (rewrite ?Bu, ?Bl; assumption).
    - now rewrite (usage_display_quota _ s Su Sl). }
  rewrite E. cbn [session_after state]. constructor.
  - eexists. split; [reflexivity|]. now repeat split.
  - rewrite <- Bu, <- Bl, <- Bh. apply IH.
    + now rewrite (usage_display_quota _ s Bu Bl).
    + now rewrite Bu, Bl.
    + now rewrite Bd.
Qed.

(** C3: the handler rejects a request made with [request_count >=
    daily_limit] as QuotaExceeded, and one made with a blank text and
    quota left as EmptyInput; either way it ends without a request to the
    API and hands back the state it was given.  Once the quota is used up,
    in a state whose usage the sidebar can display, every further Generate
    request of the day completes with the QuotaExceeded rejection, however
    many are made, with no request sent and the counter, the limit and the
    history unchanged. *)
Theorem rejected_requests_change_nothing :
  (forall (o : Options) (t : float) (s : SessionState),
     daily_limit s <= request_count s ->
     generate o t s = Finished s RejectedQuotaExceeded) /\
  (forall (o : Options) (t : float) (s : SessionState),
     request_count s < daily_limit s -> strip (input_text s) = [] ->
     generate o t s = Finished s RejectedEmptyInput) /\
  (forall (inputs : list RunInput) (s : SessionState),
     usage_display s <> None ->
     daily_limit s <= request_count s ->
     Forall (fun i => today i = day s /\ click i = GenerateSummary /\
                      text_file_uploaded i = false) inputs ->
     Forall (fun e => exists r,
               e = Completed r /\
               outcome r = RejectedQuotaExceeded /\ calls r = [] /\
               request_count (state r) = request_count s /\
               daily_limit (state r) = daily_limit s /\
               history (state r) = history s)
            (executions inputs (Some s))).
Proof.
  split; [exact generate_quota|].
  split; [exact generate_empty | exact executions_rejected].
Qed.

(** C9: the quota check comes first: given a state with the quota used up
    and a blank text, the handler ends with the quota rejection, whose one
    message is the error U+1F6AB followed by [ Daily limit reached], and
    never with the empty-input warning; the state is handed back as it was
    and no request is built.  So does every execution of the script that
    gets as far as the handler. *)
Theorem quota_check_before_empty_check :
  (forall (o : Options) (t : float) (s : SessionState),
     daily_limit s <= request_count s ->
     strip (input_text s) = [] ->
     generate o t s = Finished s RejectedQuotaExceeded /\
     generate o t s <> Finished s RejectedEmptyInput) /\
  messages RejectedQuotaExceeded
  = [(st_error, no_entry_sign :: lit " Daily limit reached")] /\
  substring (lit "Daily limit reached")
            (no_entry_sign :: lit " Daily limit reached") /\
  (forall m, In m (messages RejectedQuotaExceeded) -> fst m <> st_warning) /\
  (forall (i : RunInput) (st : option SessionState) (r : RunResult),
     script i st = Completed r ->
     click i = GenerateSummary ->
     daily_limit (before_handler i st) <= request_count (before_handler i st) ->
     strip (input_text (before_handler i st)) = [] ->
     outcome r = RejectedQuotaExceeded /\ calls r = []).
Proof.
  split; [|split; [reflexivity|split; [|split]]].
  - intros o t s Hq _. rewrite generate_quota by exact Hq.
    split; [reflexivity | discriminate].
  - exists [no_entry_sign; 32%N], []. reflexivity.
  - intros m [<- | []]. discriminate.
  - intros i st r Hs Hc Hq _.
    apply script_completed_inv in Hs. destruct Hs as (-> & _ & _).
    now rewrite run_rejected_quota.
Qed.

Lemma usage_display_some (s : SessionState) (sb : Sidebar) :
  usage_display s = Some sb ->
  sb_used sb = request_count s /\
  sb_remaining sb = Z.max 0 (daily_limit s - request_count s).
Proof.
  unfold usage_display.
  destruct (if truthy (daily_limit s) then _ else _) as [v|]; [|discriminate].
  destruct (st_progress v); [|discriminate].
  intros H. injection H as <-. now split.
Qed.

(** C10: the guards of the usage display do what they are there for: a
    limit of 0 is displayed with progress 0 and no division, and the
    remaining count is never negative.  But the display is not total.  In
    a new session, three summaries and then a quota error that reports the
    limit 2 all complete, and leave [request_count = 3] above
    [daily_limit = 2]; there the progress value is 1.5, [st.progress]
    refuses it, and every further execution of that day stops at line 51
    before anything else of the page is produced. *)
Theorem usage_display_raises_over_limit :
  (forall s, daily_limit s = 0 ->
             usage_display s
             = Some (mkSidebar (request_count s)
                               (Z.max 0 (0 - request_count s)) (PyInt 0))) /\
  (forall s sb, usage_display s = Some sb -> 0 <= sb_remaining sb) /\
  exists s,
    after_executions example_used_up None = Some s /\
    Forall (fun e => exists r, e = Completed r) (executions example_used_up None) /\
    request_count s = 3 /\ daily_limit s = 2 /\
    int_truediv (request_count s) (daily_limit s) = Some 1.5%float /\
    usage_display s = None /\
    forall i, today i = day s -> script i (Some s) = Raised 51 (startup i (Some s)).
Proof.
  split; [|split].
  - intros s H. unfold usage_display. now rewrite H.
  - intros s sb H. apply usage_display_some in H. destruct H as [_ ->]. lia.
  - eexists. split; [vm_compute; reflexivity|].
    split; [repeat (constructor; [eexists; vm_compute; reflexivity|]); constructor|].
    split; [reflexivity|]. split; [reflexivity|].
    split; [vm_compute; reflexivity|]. split; [vm_compute; reflexivity|].
    intros i Hd. unfold script.
    destruct (startup_quota i _ Hd) as [Su Sl].
    rewrite (usage_display_quota _ _ Su Sl). vm_compute usage_display at 1.
    reflexivity.
Qed.

(** ** Further properties of the script *)

(** X5: an execution that completes sends at most one request, and sends
    it exactly when Generate was pressed with quota left and a text that is
    not blank; the request names the model [gemini-2.5-flash] and carries
    the chosen token cap.  (An execution stopped at line 51 or 79 never
    reaches the call.) *)
Theorem one_call_when_checks_pass
    (i : RunInput) (st : option SessionState) (r : RunResult) :
  script i st = Completed r ->
  (calls r = [request_of i st] <->
   click i = GenerateSummary /\
   request_count (before_handler i st) < daily_limit (before_handler i st) /\
   strip (input_text (before_handler i st)) <> []) /\
  (calls r = [] \/ calls r = [request_of i st]) /\
  model (request_of i st) = lit "gemini-2.5-flash" /\
  max_output_tokens (request_of i st) = max_tokens (options i).
Proof.
  intros Hs. apply script_completed_inv in Hs. destruct Hs as (-> & _ & _).
  split; [|split; [|split; reflexivity]].
  - by_run_cases i st; rewrite E; cbn [calls]; split;
      try discriminate; try (intros _; now repeat split);
      try (now intros [? _]); try (intros (_ & ? & ?); lia || contradiction).
  - by_run_cases i st; rewrite E; cbn [calls]; auto.
Qed.

(** X10: where the usage is displayed, it agrees with the handler: it
    shows the counter the handler will test, used and remaining add up to
    the limit as long as the counter is within it, and with Generate
    pressed it shows 0 remaining exactly when the execution ends in the
    quota rejection. *)
Theorem sidebar_agrees_with_quota_check
    (i : RunInput) (st : option SessionState) (sb : Sidebar) :
  usage_display (startup i st) = Some sb ->
  text_file_uploaded i = false ->
  sb_used sb = request_count (before_handler i st) /\
  (sb_used sb <= daily_limit (before_handler i st) ->
   sb_used sb + sb_remaining sb = daily_limit (before_handler i st)) /\
  (click i = GenerateSummary ->
   (sb_remaining sb = 0 <->
    exists r, script i st = Completed r /\ outcome r = RejectedQuotaExceeded)).
Proof.
  intros Hsb Hf.
  assert (Hne : usage_display (startup i st) <> None) by congruence.
  rewrite (script_completed i st Hne Hf).
  apply usage_display_some in Hsb. destruct Hsb as [-> ->].
  destruct (widgets_quota i (startup i st)) as [Wu Wl].
  fold (before_handler i st) in Wu, Wl. rewrite <- Wu, <- Wl.
  split; [reflexivity|]. split; [lia|]. intros Hc.
  by_run_cases i st; rewrite E; try contradiction; split.
  - intros _. eexists. split; reflexivity.
  - intros _. lia.
  - intros H. lia.
  - intros (r & [= <-] & H). discriminate H.
  - intros H. lia.
  - intros (r0 & [= <-] & H). discriminate H.
  - intros H. lia.
  - intros (r & [= <-] & H). cbn [outcome] in H.
    destruct (on_exception_outcome (before_handler i st) txt) as [X | X];
      rewrite X in H; discriminate.
Qed.

(** X15: a limit the API writes in decimal after the token, in no more
    digits than [int()] accepts, is adopted as that number: a quota error
    whose leftmost [quotaValue] token is followed, after characters that
    are not digits, by the decimal form of [n] sets [daily_limit] to [n],
    shows [Daily limit: n], and leaves the counter and the history
    alone. *)
Theorem decimal_limit_adopted
    (s : SessionState) (pre mid post : pystr) (n : nat) :
  let txt := pre ++ quotaValue ++ mid ++ str_of_nat n ++ post in
  (len (str_of_nat n) <= int_max_str_digits)%nat ->
  substring (lit "RESOURCE_EXHAUSTED") txt \/ substring (lit "429") txt ->
  (forall pre' r', txt = pre' ++ quotaValue ++ r' -> (len pre <= len pre')%nat) ->
  Forall not_digit mid ->
  starts_digit_free post ->
  on_exception s txt
  = (set_daily_limit (Z.of_nat n) s, FailedQuotaError (Z.of_nat n)) /\
  messages (snd (on_exception s txt))
  = [(st_error, no_entry_sign :: lit " Gemini quota reached");
     (st_info, lit "Daily limit: " ++ str_of_nat n)].
Proof.
  intros txt _ Hq Hmin Hm Hp.
  assert (R : re_search txt = Some (str_of_nat n)).
  { unfold txt. rewrite re_search_first_integer, (after_token_leftmost pre _ Hmin).
    apply first_integer_app; try assumption.
    - apply str_of_nat_not_nil.
    - apply str_of_nat_digits. }
  assert (E : on_exception s txt
              = (set_daily_limit (Z.of_nat n) s, FailedQuotaError (Z.of_nat n))).
  { unfold on_exception.
    replace (contains (lit "RESOURCE_EXHAUSTED") txt || contains (lit "429") txt)
      with true
      by (symmetry; apply orb_true_iff;
          destruct Hq as [Hq|Hq]; [left|right]; now apply contains_substring).
    now rewrite R, int_of_str_of_nat. }
  split; [exact E|]. rewrite E. cbn [snd messages].
  now rewrite str_of_Z_of_nat.
Qed.

(** X18: in an execution that completes, Clear chat empties the history
    and does nothing else: no request is sent, the limit stays, the
    counter is the stored one (0 if the day has changed), and the
    conversation shown is empty.  In an execution stopped at line 51 the
    button is never reached and the history stays as it was. *)
Theorem clear_chat_only_clears (i : RunInput) (s : SessionState) :
  click i = ClearChat ->
  (forall r, script i (Some s) = Completed r ->
     history (state r) = [] /\
     outcome r = NoRequest /\
     calls r = [] /\
     daily_limit (state r) = daily_limit s /\
     request_count (state r)
     = (if pystr_eqb (day s) (today i) then request_count s else 0) /\
     conversation r = Some []) /\
  (forall s', script i (Some s) = Raised 51 s' -> history s' = history s).
Proof.
  intros Hc'. split.
  - intros r Hs. apply script_completed_inv in Hs. destruct Hs as (-> & _ & _).
    unfold conversation.
    pose proof (before_handler_history i s) as Hh. rewrite Hc' in Hh.
    by_run_cases i (Some s); try congruence. rewrite E.
    cbn [state outcome calls stops].
    rewrite Hh, before_handler_daily_limit, before_handler_request_count.
    now repeat split.
  - unfold script. destruct (usage_display (startup i (Some s))).
    + destruct (uploaded i); discriminate.
    + intros s' [= <-]. unfold startup, daily_reset, init_session.
      destruct (negb _), (text_area i); reflexivity.
Qed.

End Summarizer.

(** ** Worked examples *)

(** The built-in sample text has 35 words. *)
Example sample_text_words : len (split sample_text) = 35%nat.
Proof. reflexivity. Qed.

(** Two requests used, then a quota error that reports the limit 1: the
    progress value handed to the progress bar is 2.0. *)
Example progress_above_one :
  progress_value
    (state (run sample_decimal_zeros
              (example_request example_day (ApiErr (lit "429 quotaValue: 1")))
              (Some (example_session 2 50 (lit "hello world")))))
  = Some (PyFloat 2%float).
Proof. reflexivity. Qed.

(** C1, as first stated, fails on the code.  One successful request on
    the text [hello world]: the user entry starts with U+1F4C4 and a
    space, so it is not the bare string [Text submitted (2 words)].  And
    two successful requests, the second on the next day, leave
    [request_count] at 1, not 2. *)
Lemma preview_has_prefix_and_days_reset :
  (is_done (outcome (run sample_decimal_zeros
                       (example_request example_day (ApiOk (lit "hi")))
                       (Some (example_session 0 50 (lit "hello world")))))
   = true /\
   history (state (run sample_decimal_zeros
                     (example_request example_day (ApiOk (lit "hi")))
                     (Some (example_session 0 50 (lit "hello world")))))
   = [(user, page_facing_up :: lit " Text submitted (2 words)"); (ai, lit "hi")] /\
   history (state (run sample_decimal_zeros
                     (example_request example_day (ApiOk (lit "hi")))
                     (Some (example_session 0 50 (lit "hello world")))))
   <> [(user, lit "Text submitted (2 words)"); (ai, lit "hi")]) /\
  (Forall (fun r => is_done (outcome r) = true)
     (results sample_decimal_zeros
        [example_request example_day (ApiOk (lit "hi"));
         example_request example_next_day (ApiOk (lit "hi"))]
        (Some (example_session 0 50 (lit "hello world")))) /\
   option_map request_count
     (runs sample_decimal_zeros
        [example_request example_day (ApiOk (lit "hi"));
         example_request example_next_day (ApiOk (lit "hi"))]
        (Some (example_session 0 50 (lit "hello world"))))
   = Some 1).
Proof.
  split; [split; [|split]|split].
  - reflexivity.
  - reflexivity.
  - intros H. vm_compute in H. discriminate.
  - repeat constructor.
  - reflexivity.
Qed.

Lemma success_bookkeeping_witness :
  exists s',
    runs sample_decimal_zeros
      [example_request example_day (ApiOk (lit "hi"));
       example_request example_day (ApiOk (lit "hi again"))]
      (Some (example_session 0 50 (lit "hello world"))) = Some s' /\
    request_count s' = 2 /\
    daily_limit s' = 50 /\
    remaining s' = 50 - 2 /\
    len (history s') = 4%nat.
Proof.
  apply (proj2 (success_bookkeeping sample_decimal_zeros)
           [example_request example_day (ApiOk (lit "hi"));
            example_request example_day (ApiOk (lit "hi again"))]
           (example_session 0 50 (lit "hello world"))).
  - reflexivity.
  - reflexivity.
  - repeat constructor.
  - repeat constructor.
Defined.

Lemma failed_call_atomic_witness :
  request_count (state (run sample_decimal_zeros
                          (example_request example_day (ApiErr (lit "429 quotaValue: 20")))
                          (Some (example_session 3 50 (lit "hello world")))))
  = 3 /\
  history (state (run sample_decimal_zeros
                    (example_request example_day (ApiErr (lit "429 quotaValue: 20")))
                    (Some (example_session 3 50 (lit "hello world")))))
  = [].
Proof.
  apply (proj2 (failed_call_atomic sample_decimal_zeros)
           (example_request example_day (ApiErr (lit "429 quotaValue: 20")))
           (Some (example_session 3 50 (lit "hello world")))).
  intros req. exists (lit "429 quotaValue: 20"). reflexivity.
Defined.

Lemma daily_reset_keeps_limit_witness :
  request_count (daily_reset example_next_day (example_session 7 20 [])) = 0 /\
  day (daily_reset example_next_day (example_session 7 20 [])) = example_next_day /\
  daily_limit (daily_reset example_next_day (example_session 7 20 [])) = 20 /\
  history (daily_reset example_next_day (example_session 7 20 [])) = [].
Proof.
  apply (proj1 daily_reset_keeps_limit example_next_day (example_session 7 20 [])).
  intros H. vm_compute in H. discriminate.
Defined.

Lemma quota_error_adopts_reported_limit_witness :
  on_exception sample_decimal_zeros (example_session 3 50 [])
    (lit "429 RESOURCE_EXHAUSTED. " ++ lit "quotaValue: 20" ++ lit ", per day")
  = (set_daily_limit 20 (example_session 3 50 []), FailedQuotaError 20) /\
  request_count
    (fst (on_exception sample_decimal_zeros (example_session 3 50 [])
            (lit "429 RESOURCE_EXHAUSTED. " ++ lit "quotaValue: 20" ++ lit ", per day")))
  = 3.
Proof.
  apply (proj1 (proj2 (proj2 (quota_error_adopts_reported_limit sample_decimal_zeros)))
           (example_session 3 50 []) (lit "429 RESOURCE_EXHAUSTED. ") (lit ", per day")).
  - apply contains_substring. reflexivity.
  - reflexivity.
  - reflexivity.
Defined.

(** ** Worked examples for the further properties *)

Lemma daily_limit_changes_only_on_quota_error_witness :
  exists txt n,
    api (example_request example_day (ApiErr (lit "429 quotaValue: 20")))
        (request_of (example_request example_day (ApiErr (lit "429 quotaValue: 20")))
                    (Some (example_session 3 50 (lit "hello world"))))
    = ApiErr txt /\
    (substring (lit "RESOURCE_EXHAUSTED") txt \/ substring (lit "429") txt) /\
    reported_limit sample_decimal_zeros txt = Some n /\
    daily_limit (state (run sample_decimal_zeros
                          (example_request example_day (ApiErr (lit "429 quotaValue: 20")))
                          (Some (example_session 3 50 (lit "hello world"))))) = n /\
    outcome (run sample_decimal_zeros
               (example_request example_day (ApiErr (lit "429 quotaValue: 20")))
               (Some (example_session 3 50 (lit "hello world"))))
    = FailedQuotaError n.
Proof.
  apply (daily_limit_changes_only_on_quota_error sample_decimal_zeros
           (example_request example_day (ApiErr (lit "429 quotaValue: 20")))
           (example_session 3 50 (lit "hello world"))).
  intros H. vm_compute in H. discriminate H.
Defined.

Lemma done_has_words_witness :
  (1 <= 2)%nat /\
  2%nat = len (split (input_text
                        (state (run sample_decimal_zeros
                                  (example_request example_day (ApiOk (lit "hi")))
                                  (Some (example_session 0 50 (lit "hello world"))))))) /\
  1%nat = len (split (lit "hi")) /\
  api (example_request example_day (ApiOk (lit "hi")))
      (request_of (example_request example_day (ApiOk (lit "hi")))
                  (Some (example_session 0 50 (lit "hello world"))))
  = ApiOk (lit "hi") /\
  exists q, PyFloat 50%float = PyFloat q.
Proof.
  apply (done_has_words sample_decimal_zeros
           (example_request example_day (ApiOk (lit "hi")))
           (Some (example_session 0 50 (lit "hello world")))
           (lit "hi") 2 1 (PyFloat 50%float)).
  reflexivity.
Defined.

Lemma never_over_limit_without_quota_errors_witness :
  daily_limit (state (run sample_decimal_zeros
                        (example_request example_next_day (ApiErr (lit "timeout")))
                        (Some (state (run sample_decimal_zeros
                                        (example_typed example_day (lit "hello") (ApiOk (lit "hi")))
                                        None))))) = 50 /\
  0 <= request_count
         (state (run sample_decimal_zeros
                   (example_request example_next_day (ApiErr (lit "timeout")))
                   (Some (state (run sample_decimal_zeros
                                   (example_typed example_day (lit "hello") (ApiOk (lit "hi")))
                                   None))))) <= 50.
Proof.
  apply (never_over_limit_without_quota_errors sample_decimal_zeros
           [example_typed example_day (lit "hello") (ApiOk (lit "hi"));
            example_request example_next_day (ApiErr (lit "timeout"))]).
  - repeat constructor.
  - reflexivity.
Defined.



Lemma reported_limit_of_leftmost_token_witness :
  re_search sample_decimal_zeros
    (lit "429 " ++ quotaValue ++ lit ": " ++ lit "20" ++ lit " per day")
  = Some (lit "20") /\
  reported_limit sample_decimal_zeros
    (lit "429 " ++ quotaValue ++ lit ": " ++ lit "20" ++ lit " per day")
  = Some (int_of_digits sample_decimal_zeros (lit "20")).
Proof.
  apply (reported_limit_of_leftmost_token sample_decimal_zeros
           (lit "429 ") (lit ": ") (lit "20") (lit " per day")).
  - intros pre' r' E.
    do 4 (destruct pre' as [|? pre']; [vm_compute in E; discriminate E|]).
    cbn. lia.
  - repeat constructor.
  - discriminate.
  - repeat constructor.
  - reflexivity.
Defined.

Lemma sample_then_generate_witness :
  input_text (state (run sample_decimal_zeros (example_click example_day LoadSample)
                       (Some (example_session 0 50 []))))
  = sample_text /\
  calls (run sample_decimal_zeros (example_click example_day LoadSample)
           (Some (example_session 0 50 []))) = [] /\
  calls (run sample_decimal_zeros (example_request example_day (ApiOk (lit "hi")))
           (Some (state (run sample_decimal_zeros (example_click example_day LoadSample)
                           (Some (example_session 0 50 []))))))
  = [api_request (options (example_request example_day (ApiOk (lit "hi"))))
       (spec_temperature
          (summary_length (options (example_request example_day (ApiOk (lit "hi"))))))
       sample_text] /\
  history (state (run sample_decimal_zeros (example_request example_day (ApiOk (lit "hi")))
                    (Some (state (run sample_decimal_zeros
                                    (example_click example_day LoadSample)
                                    (Some (example_session 0 50 [])))))))
  = history (example_session 0 50 [])
    ++ [(user, page_facing_up :: lit " Text submitted (35 words)"); (ai, lit "hi")] /\
  request_count (state (run sample_decimal_zeros
                          (example_request example_day (ApiOk (lit "hi")))
                          (Some (state (run sample_decimal_zeros
                                          (example_click example_day LoadSample)
                                          (Some (example_session 0 50 [])))))))
  = request_count (state (run sample_decimal_zeros (example_click example_day LoadSample)
                            (Some (example_session 0 50 [])))) + 1.
Proof.
  apply (sample_then_generate sample_decimal_zeros (example_session 0 50 [])
           (example_click example_day LoadSample)
           (example_request example_day (ApiOk (lit "hi"))) (lit "hi"));
    reflexivity.
Defined.

(** ** Worked examples for the script *)

Lemma rejected_requests_change_nothing_witness :
  Forall (fun e => exists r,
            e = Completed r /\
            outcome r = RejectedQuotaExceeded /\ calls r = [] /\
            request_count (state r) = request_count (example_session 2 2 (lit "hello world")) /\
            daily_limit (state r) = daily_limit (example_session 2 2 (lit "hello world")) /\
            history (state r) = history (example_session 2 2 (lit "hello world")))
    (executions sample_decimal_zeros
       [example_request example_day (ApiOk (lit "hi"));
        example_request example_day (ApiErr (lit "429"));
        example_request example_day (ApiOk (lit "hi"))]
       (Some (example_session 2 2 (lit "hello world")))).
Proof.
  apply (proj2 (proj2 (rejected_requests_change_nothing sample_decimal_zeros))
           [example_request example_day (ApiOk (lit "hi"));
            example_request example_day (ApiErr (lit "429"));
            example_request example_day (ApiOk (lit "hi"))]
           (example_session 2 2 (lit "hello world"))).
  - intros H. vm_compute in H. discriminate H.
  - discriminate.
  - repeat constructor.
Defined.

Lemma quota_check_before_empty_check_witness :
  generate sample_decimal_zeros example_options 0.5%float
           (example_session 5 5 (lit "  "))
  = Finished (example_session 5 5 (lit "  ")) RejectedQuotaExceeded /\
  generate sample_decimal_zeros example_options 0.5%float
           (example_session 5 5 (lit "  "))
  <> Finished (example_session 5 5 (lit "  ")) RejectedEmptyInput.
Proof.
  apply (proj1 (quota_check_before_empty_check sample_decimal_zeros)
           example_options 0.5%float (example_session 5 5 (lit "  "))).
  - discriminate.
  - reflexivity.
Defined.

Lemma one_call_when_checks_pass_witness :
  (calls (run sample_decimal_zeros (example_request example_day (ApiOk (lit "hi")))
            (Some (example_session 0 50 (lit "hello world"))))
   = [request_of (example_request example_day (ApiOk (lit "hi")))
                 (Some (example_session 0 50 (lit "hello world")))] <->
   click (example_request example_day (ApiOk (lit "hi"))) = GenerateSummary /\
   request_count (before_handler (example_request example_day (ApiOk (lit "hi")))
                                 (Some (example_session 0 50 (lit "hello world"))))
   < daily_limit (before_handler (example_request example_day (ApiOk (lit "hi")))
                                 (Some (example_session 0 50 (lit "hello world")))) /\
   strip (input_text (before_handler (example_request example_day (ApiOk (lit "hi")))
                                     (Some (example_session 0 50 (lit "hello world")))))
   <> []) /\
  (calls (run sample_decimal_zeros (example_request example_day (ApiOk (lit "hi")))
            (Some (example_session 0 50 (lit "hello world")))) = [] \/
   calls (run sample_decimal_zeros (example_request example_day (ApiOk (lit "hi")))
            (Some (example_session 0 50 (lit "hello world"))))
   = [request_of (example_request example_day (ApiOk (lit "hi")))
                 (Some (example_session 0 50 (lit "hello world")))]) /\
  model (request_of (example_request example_day (ApiOk (lit "hi")))
                    (Some (example_session 0 50 (lit "hello world"))))
  = lit "gemini-2.5-flash" /\
  max_output_tokens (request_of (example_request example_day (ApiOk (lit "hi")))
                                (Some (example_session 0 50 (lit "hello world"))))
  = max_tokens (options (example_request example_day (ApiOk (lit "hi")))).
Proof.
  apply (one_call_when_checks_pass sample_decimal_zeros
           (example_request example_day (ApiOk (lit "hi")))
           (Some (example_session 0 50 (lit "hello world")))).
  reflexivity.
Defined.

Lemma sidebar_agrees_with_quota_check_witness :
  sb_used (mkSidebar 5 0 (PyFloat 1%float))
  = request_count (before_handler (example_request example_day (ApiOk (lit "hi")))
                                  (Some (example_session 5 5 (lit "hello world")))) /\
  (sb_used (mkSidebar 5 0 (PyFloat 1%float))
   <= daily_limit (before_handler (example_request example_day (ApiOk (lit "hi")))
                                  (Some (example_session 5 5 (lit "hello world")))) ->
   sb_used (mkSidebar 5 0 (PyFloat 1%float)) + sb_remaining (mkSidebar 5 0 (PyFloat 1%float))
   = daily_limit (before_handler (example_request example_day (ApiOk (lit "hi")))
                                 (Some (example_session 5 5 (lit "hello world"))))) /\
  (click (example_request example_day (ApiOk (lit "hi"))) = GenerateSummary ->
   (sb_remaining (mkSidebar 5 0 (PyFloat 1%float)) = 0 <->
    exists r,
      script sample_decimal_zeros (example_request example_day (ApiOk (lit "hi")))
             (Some (example_session 5 5 (lit "hello world"))) = Completed r /\
      outcome r = RejectedQuotaExceeded)).
Proof.
  apply (sidebar_agrees_with_quota_check sample_decimal_zeros
           (example_request example_day (ApiOk (lit "hi")))
           (Some (example_session 5 5 (lit "hello world")))
           (mkSidebar 5 0 (PyFloat 1%float))).
  - reflexivity.
  - reflexivity.
Defined.

Lemma decimal_limit_adopted_witness :
  on_exception sample_decimal_zeros (example_session 3 50 [])
    (lit "429 " ++ quotaValue ++ lit ": " ++ str_of_nat 20 ++ lit ", per day")
  = (set_daily_limit (Z.of_nat 20) (example_session 3 50 []),
     FailedQuotaError (Z.of_nat 20)) /\
  messages
    (snd (on_exception sample_decimal_zeros (example_session 3 50 [])
            (lit "429 " ++ quotaValue ++ lit ": " ++ str_of_nat 20 ++ lit ", per day")))
  = [(st_error, no_entry_sign :: lit " Gemini quota reached");
     (st_info, lit "Daily limit: " ++ str_of_nat 20)].
Proof.
  apply (decimal_limit_adopted sample_decimal_zeros (example_session 3 50 [])
           (lit "429 ") (lit ": ") (lit ", per day") 20).
  - apply Nat.leb_le. reflexivity.
  - right. apply contains_substring. reflexivity.
  - intros pre' r' E.
    do 4 (destruct pre' as [|? pre']; [vm_compute in E; discriminate E|]).
    cbn. lia.
  - repeat constructor.
  - reflexivity.
Defined.

Lemma clear_chat_only_clears_witness :
  history (state (run sample_decimal_zeros (example_click example_day ClearChat)
                    (Some (mkSession example_day 3 50
                             [(user, lit "x"); (ai, lit "y")] []))))
  = [] /\
  outcome (run sample_decimal_zeros (example_click example_day ClearChat)
             (Some (mkSession example_day 3 50 [(user, lit "x"); (ai, lit "y")] [])))
  = NoRequest /\
  calls (run sample_decimal_zeros (example_click example_day ClearChat)
           (Some (mkSession example_day 3 50 [(user, lit "x"); (ai, lit "y")] [])))
  = [] /\
  daily_limit (state (run sample_decimal_zeros (example_click example_day ClearChat)
                        (Some (mkSession example_day 3 50
                                 [(user, lit "x"); (ai, lit "y")] []))))
  = daily_limit (mkSession example_day 3 50 [(user, lit "x"); (ai, lit "y")] []) /\
  request_count (state (run sample_decimal_zeros (example_click example_day ClearChat)
                          (Some (mkSession example_day 3 50
                                   [(user, lit "x"); (ai, lit "y")] []))))
  = (if pystr_eqb (day (mkSession example_day 3 50 [(user, lit "x"); (ai, lit "y")] []))
                  (today (example_click example_day ClearChat))
     then request_count (mkSession example_day 3 50 [(user, lit "x"); (ai, lit "y")] [])
     else 0) /\
  conversation (run sample_decimal_zeros (example_click example_day ClearChat)
                  (Some (mkSession example_day 3 50
                           [(user, lit "x"); (ai, lit "y")] [])))
  = Some [].
Proof.
  apply (proj1 (clear_chat_only_clears sample_decimal_zeros
                  (example_click example_day ClearChat)
                  (mkSession example_day 3 50 [(user, lit "x"); (ai, lit "y")] [])
                  eq_refl)).
  reflexivity.
Defined.
